(** * Ottoman AI chat relay (src/app.py): session bookkeeping and response cleaning

    A shallow embedding of the Flask application in src/app.py.  The
    handlers [chat], [reset_chat] and [session_test] become functions from
    the session found at the start of a request to the HTTP response and the
    session left at its end.  The completion API is a collaborator: what it
    answers to the posted transcript is an argument of [chat].

    Python strings are modelled by [string]; a character is a code point
    below 256.  Python integers are [Z]. *)

From Stdlib Require Import ZArith Ascii String DecimalString.
From stdpp Require Import base option list gmap strings.

Local Open Scope Z_scope.

(** ** Characters and strings *)

Module Py.

Definition code (c : ascii) : Z := Z.of_N (N_of_ascii c).

(** [str.isspace] on one character, which is also what [\s] matches in a
    [str] pattern: the code points 9-13, 28-32, 133 and 160. *)
Definition isspace (c : ascii) : bool :=
  let n := code c in
  ((9 <=? n) && (n <=? 13)) || ((28 <=? n) && (n <=? 32))
  || (n =? 133) || (n =? 160).

(** [str.lower] on one character: A-Z and the capital letters of the
    upper half (192-222 but the multiplication sign 215) move up by 32. *)
Definition lower_char (c : ascii) : ascii :=
  let n := code c in
  if ((65 <=? n) && (n <=? 90))
     || ((192 <=? n) && (n <=? 222) && negb (n =? 215))
  then ascii_of_N (Z.to_N (n + 32))
  else c.

Fixpoint lower (s : string) : string :=
  match s with
  | EmptyString => EmptyString
  | String c r => String (lower_char c) (lower r)
  end.

Fixpoint lstrip (s : string) : string :=
  match s with
  | EmptyString => EmptyString
  | String c r => if isspace c then lstrip r else s
  end.

Fixpoint rstrip (s : string) : string :=
  match s with
  | EmptyString => EmptyString
  | String c r =>
      match rstrip r with
      | EmptyString => if isspace c then EmptyString else String c EmptyString
      | r' => String c r'
      end
  end.

(** [s.strip()] *)
Definition strip (s : string) : string := rstrip (lstrip s).

(** [str(n)] for an integer. *)
Definition str_int (n : Z) : string := NilZero.string_of_int (Z.to_int n).

(** Every character of [s] satisfies [p]. *)
Fixpoint all (p : ascii → bool) (s : string) : bool :=
  match s with
  | EmptyString => true
  | String c r => p c && all p r
  end.

End Py.

Definition LF : ascii := "010"%char.

(** ** [clean_response] *)

(** The character class [[#*_~`]]. *)
Definition is_markdown (c : ascii) : bool :=
  let n := Py.code c in
  (n =? 35) || (n =? 42) || (n =? 95) || (n =? 126) || (n =? 96).

(** [re.sub(r'[#*_~`]', '', text)] *)
Fixpoint remove_markdown (text : string) : string :=
  match text with
  | EmptyString => EmptyString
  | String c r =>
      if is_markdown c then remove_markdown r else String c (remove_markdown r)
  end.

(** The rest [\s*\n] of the pattern [\n\s*\n], tried at the start of [s]
    the way the backtracking matcher does: [\s*] first takes a character
    when it can and gives it back when the rest does not match.  The result
    is the number of characters matched. *)
Fixpoint match_blank (s : string) : option nat :=
  match s with
  | EmptyString => None
  | String c r =>
      match (if Py.isspace c then match_blank r else None) with
      | Some n => Some (S n)
      | None => if Ascii.eqb c LF then Some 1%nat else None
      end
  end.

(** [re.sub(r'\n\s*\n', '<br><br>', text)]: the text is scanned from the
    left; [skip] counts the characters of the current match still to be
    passed over. *)
Fixpoint sub_blank (skip : nat) (text : string) : string :=
  match text with
  | EmptyString => EmptyString
  | String c r =>
      match skip with
      | S k => sub_blank k r
      | O =>
          if Ascii.eqb c LF then
            match match_blank r with
            | Some n => "<br><br>" +:+ sub_blank n r
            | None => String c (sub_blank 0 r)
            end
          else String c (sub_blank 0 r)
      end
  end.

Definition clean_response (text : string) : string :=
  let text := remove_markdown text in
  let text := sub_blank 0 text in
  Py.strip text.

(** ** Values *)

(** The exceptions the handlers can meet.  [RequestException] stands for
    whatever [requests.post] raises itself (connection refused, time-out,
    ...); [HTTPError] is raised by [raise_for_status]. *)
Inductive exn :=
| RequestException (description : string)
| HTTPError (status : Z)
| JSONDecodeError
| KeyError
| IndexError
| TypeError
| AttributeError.

Inductive result (A : Type) :=
| Ok (a : A)
| Raise (e : exn).
Arguments Ok {A} a.
Arguments Raise {A} e.

#[global] Instance result_ret : MRet result := @Ok.
#[global] Instance result_bind : MBind result := λ A B f m,
  match m with
  | Ok a => f a
  | Raise e => Raise e
  end.

(** A parsed JSON document, as [request.get_json()] and [response.json()]
    return it.  A number keeps its literal; no handler looks at it. *)
#[warnings="-register-all"]
Inductive json :=
| JNull
| JBool (b : bool)
| JNum (literal : string)
| JStr (s : string)
| JArr (items : list json)
| JObj (members : gmap string json).

(** [x[key]] for a string key. *)
Definition getitem (x : json) (key : string) : result json :=
  match x with
  | JObj o =>
      match o !! key with
      | Some v => Ok v
      | None => Raise KeyError
      end
  | _ => Raise TypeError
  end.

(** [x[0]].  The keys of a parsed object are strings, so [0] is never one
    of them; a string yields its first character. *)
Definition getitem0 (x : json) : result json :=
  match x with
  | JArr (v :: _) => Ok v
  | JArr [] => Raise IndexError
  | JStr (String c _) => Ok (JStr (String c EmptyString))
  | JStr EmptyString => Raise IndexError
  | JObj _ => Raise KeyError
  | _ => Raise TypeError
  end.

(** ** Sessions *)

Inductive role_tag := system | user | assistant.

#[global] Instance role_tag_eq_dec : EqDecision role_tag.
Proof. solve_decision. Defined.

(** One entry of [session["chat_history"]]: [{"role": ..., "content": ...}]. *)
Record turn := Turn { role : role_tag; content : string }.

(** What the application stores under a session key: an integer
    ([bot_response_count], [test]) or a list of turns ([chat_history]). *)
Inductive sval :=
| VInt (n : Z)
| VList (turns : list turn).

(** The session is the dictionary [gmap string sval]. *)

Definition SYSTEM_PROMPT : string :=
  String.concat "" [
    "You are Ottoman AI, a professional AI chef providing expert food and nutrition advice. ";
    "Offer detailed, accurate, and culturally sensitive culinary information, ensuring your responses ";
    "are tailored to the needs and preferences of the user."; String LF (String LF "");
    "# Guidelines:"; String LF "";
    "- **Expertise**: Provide precise measurements, techniques, and substitutions where applicable."; String LF "";
    "- **Cultural Awareness**: Be mindful of global culinary traditions (vegan, halal, kosher, etc.)."; String LF "";
    "- **Clarity and Precision**: Use clear step-by-step instructions."; String LF "";
    "- **Customizability**: Tailor suggestions to user preferences, skill level, and available ingredients."; String LF (String LF "");
    "# Output Format:"; String LF "";
    "For recipes: "; String LF "";
    "- Title"; String LF "";
    "- Ingredients (with quantities)"; String LF "";
    "- Instructions (step-by-step)"; String LF "";
    "- Serving Suggestions"; String LF "";
    "- Nutrition Information (optional)"; String LF (String LF "");
    "For nutrition advice: Provide concise and clear responses." ].

Definition system_turn : turn := Turn system SYSTEM_PROMPT.

(** ** The completion API *)

(** What one [requests.post] does: it raises, or it returns a response with
    a status code and a body; [None] is a body that is not JSON. *)
Inductive upstream :=
| Raised (e : exn)
| Response (status : Z) (body : option json).

(** [response.raise_for_status()] raises [HTTPError] for the client and
    server error codes 400-599 and returns for every other status. *)
Definition raise_for_status (status : Z) : result unit :=
  if (400 <=? status) && (status <? 600) then Raise (HTTPError status)
  else Ok tt.

(** [response.json()] *)
Definition response_json (body : option json) : result json :=
  match body with
  | Some j => Ok j
  | None => Raise JSONDecodeError
  end.

(** [clean_response] called on a parsed value: [re.sub] raises [TypeError]
    on anything that is not a string. *)
Definition clean_response_of (a : json) : result (string * string) :=
  match a with
  | JStr s => Ok (s, clean_response s)
  | _ => Raise TypeError
  end.

(** The first five statements of the [try] block of [chat]: the raw and the
    cleaned assistant message. *)
Definition completion (u : upstream) : result (string * string) :=
  match u with
  | Raised e => Raise e
  | Response status body =>
      _ ← raise_for_status status;
      j ← response_json body;
      choices ← getitem j "choices";
      choice ← getitem0 choices;
      message ← getitem choice "message";
      assistant_message ← getitem message "content";
      clean_response_of assistant_message
  end.

(** ** HTTP responses *)

(** [Jsonify status key value] is [jsonify({key: value}), status];
    [Plain] is a text body with status 200; [Unhandled e] is an exception
    that leaves the view function. *)
Inductive response :=
| Jsonify (status : Z) (key value : string)
| Plain (body : string)
| Unhandled (e : exn).

(** ** The handlers *)

Section Handlers.

(** [str(e)] for an exception: the text Python renders it with. *)
Variable str : exn → string.

(** [data.get("message", "").strip()] *)
Definition get_message (data : json) : result string :=
  match data with
  | JObj d =>
      match default (JStr "") (d !! "message") with
      | JStr s => Ok (Py.strip s)
      | _ => Raise AttributeError
      end
  | _ => Raise AttributeError
  end.

(** [if "chat_history" not in session: ...] *)
Definition init_history (session : gmap string sval) : gmap string sval :=
  match session !! "chat_history" with
  | None =>
      <["bot_response_count" := VInt 0]>
        (<["chat_history" := VList [system_turn]]> session)
  | Some _ => session
  end.

(** [session["chat_history"]] where a list is needed; [e] is what the
    operation applied to it raises on an integer. *)
Definition chat_history (e : exn) (session : gmap string sval)
  : result (list turn) :=
  match session !! "chat_history" with
  | Some (VList h) => Ok h
  | Some (VInt _) => Raise e
  | None => Raise KeyError
  end.

(** The "continue" rewriting. *)
Definition effective_message (user_message : string)
    (session : gmap string sval) : result string :=
  if String.eqb (Py.lower user_message) "continue" then
    h ← chat_history TypeError session;
    if (1 <? length h)%nat then
      match last h with
      | Some t => Ok ("Continue from where you left off: " +:+ content t)
      | None => Raise IndexError
      end
    else Ok user_message
  else Ok user_message.

(** [session["chat_history"].append(t)] *)
Definition append_turn (t : turn) (session : gmap string sval)
  : result (gmap string sval) :=
  h ← chat_history AttributeError session;
  Ok (<["chat_history" := VList (h ++ [t])]> session).

(** [session["bot_response_count"] += 1] *)
Definition count_reply (session : gmap string sval)
  : result (gmap string sval) :=
  match session !! "bot_response_count" with
  | Some (VInt n) => Ok (<["bot_response_count" := VInt (n + 1)]> session)
  | Some (VList _) => Raise TypeError
  | None => Raise KeyError
  end.

(** The [try] block of [chat]: what it returns or raises, and the session
    it leaves.  The transcript posted as ["messages"] is read from the
    session, where the user turn has just been appended to it. *)
Definition relay (api : list turn → upstream) (session : gmap string sval)
  : result string * gmap string sval :=
  match chat_history TypeError session with
  | Raise e => (Raise e, session)
  | Ok messages =>
      match completion (api messages) with
      | Raise e => (Raise e, session)
      | Ok (assistant_message, cleaned_message) =>
          match append_turn (Turn assistant assistant_message) session with
          | Raise e => (Raise e, session)
          | Ok session =>
              match count_reply session with
              | Raise e => (Raise e, session)
              | Ok session => (Ok cleaned_message, session)
              end
          end
      end
  end.

(** [POST /chat] *)
Definition chat (data : json) (api : list turn → upstream)
    (session : gmap string sval) : response * gmap string sval :=
  match get_message data with
  | Raise e => (Unhandled e, session)
  | Ok user_message =>
      if String.eqb user_message "" then
        (Jsonify 400 "error" "Please enter a message.", session)
      else
        let session := init_history session in
        match effective_message user_message session with
        | Raise e => (Unhandled e, session)
        | Ok user_message =>
            match append_turn (Turn user user_message) session with
            | Raise e => (Unhandled e, session)
            | Ok session =>
                match relay api session with
                | (Ok cleaned_message, session) =>
                    (Jsonify 200 "reply" cleaned_message, session)
                | (Raise e, session) =>
                    (Jsonify 500 "error" ("Unexpected error: " +:+ str e),
                     session)
                end
            end
        end
  end.

(** [POST /reset] *)
Definition reset_chat (session : gmap string sval)
  : response * gmap string sval :=
  (Jsonify 200 "message" "Chat history has been reset.", ∅).

(** [GET /session_test] *)
Definition session_test (session : gmap string sval)
  : response * gmap string sval :=
  match default (VInt 0) (session !! "test") with
  | VInt n =>
      let session := <["test" := VInt (n + 1)]> session in
      (Plain ("Session count: " +:+ Py.str_int (n + 1)), session)
  | VList _ => (Unhandled TypeError, session)
  end.

(** The sessions the application can hold: a new one is empty, and every
    request leaves the session its handler computed. *)
Inductive reachable : gmap string sval → Prop :=
| reachable_new : reachable ∅
| reachable_chat data api session :
    reachable session → reachable (chat data api session).2
| reachable_reset session :
    reachable session → reachable (reset_chat session).2
| reachable_test session :
    reachable session → reachable (session_test session).2.

End Handlers.

(** ** Observations used in the statements *)

(** The transcript a request works on: the stored one, or the seed the
    handler installs when there is none. *)
Definition seeded (session : gmap string sval) : list turn :=
  match session !! "chat_history" with
  | Some (VList h) => h
  | _ => [system_turn]
  end.

(** The reply counter, read as zero while the session has none. *)
Definition reply_count (session : gmap string sval) : Z :=
  match session !! "bot_response_count" with
  | Some (VInt n) => n
  | _ => 0
  end.

(** The number of assistant turns of a transcript. *)
Definition replies (h : list turn) : Z :=
  Z.of_nat (length (filter (λ t, role t = assistant) h)).

(** The text of the user turn appended for the trimmed message [m] when the
    transcript is [h]. *)
Definition continued (m : string) (h : list turn) : string :=
  if String.eqb (Py.lower m) "continue" && (1 <? length h)%nat then
    match last h with
    | Some t => "Continue from where you left off: " +:+ content t
    | None => m
    end
  else m.

(** The transcript posted to the completion API for the trimmed message
    [m]: the seeded transcript and the new user turn. *)
Definition posted (m : string) (session : gmap string sval) : list turn :=
  seeded session ++ [Turn user (continued m (seeded session))].

(** The stored transcript, empty while the session has none. *)
Definition transcript (session : gmap string sval) : list turn :=
  match session !! "chat_history" with
  | Some (VList h) => h
  | _ => []
  end.

(** The completion format [{"choices": [{"message": {"content": s}}]}]:
    the content of the first choice of a body of that shape. *)
Definition first_choice_content (body : json) : option string :=
  match body with
  | JObj o =>
      match o !! "choices" with
      | Some (JArr (JObj choice :: _)) =>
          match choice !! "message" with
          | Some (JObj message) =>
              match message !! "content" with
              | Some (JStr s) => Some s
              | _ => None
              end
          | _ => None
          end
      | _ => None
      end
  | _ => None
  end.

(** A failed completion call: the request raised, the status is an error
    status for [raise_for_status], or the body is not a completion. *)
Definition upstream_failed (u : upstream) : Prop :=
  match u with
  | Raised _ => True
  | Response status body =>
      400 ≤ status < 600 ∨
      match body with
      | Some j => first_choice_content j = None
      | None => True
      end
  end.

(** The same with "any status outside 200-299" for the status. *)
Definition upstream_failed_non_2xx (u : upstream) : Prop :=
  match u with
  | Raised _ => True
  | Response status body =>
      ¬ (200 ≤ status < 300) ∨
      match body with
      | Some j => first_choice_content j = None
      | None => True
      end
  end.

(** What every stored session satisfies: it has no transcript and no
    counter, or a transcript made of the system turn and at least one more
    turn, none of them a system turn, with the counter at the number of
    assistant turns; the diagnostic counter is absent or positive. *)
Record session_inv (session : gmap string sval) : Prop := SessionInv {
  inv_history :
    match session !! "chat_history" with
    | None => session !! "bot_response_count" = None
    | Some (VList h) =>
        (∃ t1 rest, h = system_turn :: t1 :: rest ∧
           Forall (λ t, role t = user ∨ role t = assistant) (t1 :: rest)) ∧
        session !! "bot_response_count" = Some (VInt (replies h))
    | Some (VInt _) => False
    end;
  inv_test :
    match session !! "test" with
    | None => True
    | Some (VInt n) => 0 < n
    | Some (VList _) => False
    end
}.

(** The transcript is not an integer. *)
Definition history_ok (session : gmap string sval) : Prop :=
  ∀ n, session !! "chat_history" ≠ Some (VInt n).

(** A body of the completion format, and a request body, for the examples. *)
Definition completion_body (s : string) : json :=
  JObj {[ "choices" :=
            JArr [JObj {[ "message" := JObj {[ "content" := JStr s ]} ]}] ]}.

Definition message_body (s : string) : gmap string json :=
  {[ "message" := JStr s ]}.

Definition str_sample (e : exn) : string :=
  match e with
  | RequestException description => description
  | HTTPError status => Py.str_int status +:+ " Error"
  | JSONDecodeError => "Expecting value: line 1 column 1 (char 0)"
  | KeyError => "'choices'"
  | IndexError => "list index out of range"
  | TypeError => "expected string or bytes-like object"
  | AttributeError => "'NoneType' object has no attribute 'get'"
  end.

(** ** Strings *)

Lemma lstrip_blank s : Py.all Py.isspace s = true → Py.lstrip s = "".
Proof.
  induction s as [|c r IH]; simpl; [done|].
  intros [Hc Hr]%andb_prop. rewrite Hc. auto.
Qed.

Lemma strip_blank s : Py.all Py.isspace s = true → Py.strip s = "".
Proof. intros H. unfold Py.strip. by rewrite lstrip_blank. Qed.

Lemma rstrip_empty s : Py.rstrip s = "" → Py.all Py.isspace s = true.
Proof.
  induction s as [|c r IH]; simpl; [done|].
  destruct (Py.rstrip r); [|done].
  destruct (Py.isspace c); [auto|done].
Qed.

Lemma lstrip_head s :
  Py.lstrip s = "" ∨ ∃ c r, Py.lstrip s = String c r ∧ Py.isspace c = false.
Proof.
  induction s as [|c r IH]; simpl; [by left|].
  destruct (Py.isspace c) eqn:Hc; [done|]. right. eauto.
Qed.

Lemma lstrip_empty s : Py.lstrip s = "" → Py.all Py.isspace s = true.
Proof.
  induction s as [|c r IH]; simpl; [done|].
  destruct (Py.isspace c); [auto|done].
Qed.

(** Trimming leaves nothing exactly when every character is white space. *)
Lemma strip_empty_iff s : Py.strip s = "" ↔ Py.all Py.isspace s = true.
Proof.
  split; [|apply strip_blank].
  unfold Py.strip. intros H%rstrip_empty.
  destruct (lstrip_head s) as [E|(c & r & E & Hc)].
  - by apply lstrip_empty.
  - rewrite E in H. simpl in H. by rewrite Hc in H.
Qed.

(** ** Response cleaning *)

(** C7: cleaning the text "**Title**", blank line, "- item" gives
    "Title<br><br>- item": the asterisks are removed and the two line feeds
    become the paragraph break. *)
Theorem clean_response_title_item :
  clean_response ("**Title**" +:+ String LF (String LF "- item"))
  = "Title<br><br>- item".
Proof. reflexivity. Qed.

(** ** Counting replies *)

Lemma replies_snoc h t :
  replies (h ++ [t]) = replies h + (if decide (role t = assistant) then 1 else 0).
Proof.
  unfold replies. rewrite filter_app, length_app, Nat2Z.inj_add. f_equal.
  rewrite filter_cons, filter_nil. by case_decide.
Qed.

Lemma replies_system : replies [system_turn] = 0.
Proof. reflexivity. Qed.

(** ** The chat handler on stored sessions *)

Section Properties.
Variable str : exn → string.

Lemma get_message_lookup d raw :
  d !! "message" = Some (JStr raw) → get_message (JObj d) = Ok (Py.strip raw).
Proof. intros H. unfold get_message. by rewrite H. Qed.

Lemma init_history_lookup (s : gmap string sval) :
  history_ok s → init_history s !! "chat_history" = Some (VList (seeded s)).
Proof.
  intros Hs. unfold init_history, seeded.
  destruct (s !! "chat_history") as [[n|h]|] eqn:E;
    [by destruct (Hs n)|done|].
  rewrite lookup_insert_ne by done. by rewrite lookup_insert_eq.
Qed.

Lemma init_history_other (s : gmap string sval) k :
  k ≠ "chat_history" → k ≠ "bot_response_count" →
  init_history s !! k = s !! k.
Proof.
  intros H1 H2. unfold init_history.
  destruct (s !! "chat_history"); [done|].
  by rewrite !lookup_insert_ne.
Qed.

Lemma effective_message_seeded m (s : gmap string sval) :
  history_ok s →
  effective_message m (init_history s) = Ok (continued m (seeded s)).
Proof.
  intros Hs. unfold effective_message, continued, chat_history.
  rewrite init_history_lookup by done.
  destruct (String.eqb _ _); simpl; [|done].
  destruct (1 <? length (seeded s))%nat eqn:L; [|done].
  destruct (last (seeded s)) eqn:El; [done|].
  apply last_None in El. rewrite El in L. done.
Qed.

Lemma chat_typed data m api (s : gmap string sval) :
  get_message data = Ok m → m ≠ "" → history_ok s →
  let h1 := posted m s in
  let s1 := <["chat_history" := VList h1]> (init_history s) in
  chat str data api s =
    match completion (api h1) with
    | Raise e => (Jsonify 500 "error" ("Unexpected error: " +:+ str e), s1)
    | Ok (am, cm) =>
        let s2 := <["chat_history" := VList (h1 ++ [Turn assistant am])]> s1 in
        match count_reply s2 with
        | Ok s3 => (Jsonify 200 "reply" cm, s3)
        | Raise e => (Jsonify 500 "error" ("Unexpected error: " +:+ str e), s2)
        end
    end.
Proof.
  intros Hd Hne Hs h1 s1. unfold posted in h1. unfold chat. rewrite Hd.
  destruct (String.eqb_spec m "") as [|_]; [done|].
  rewrite effective_message_seeded by done.
  unfold append_turn at 1. unfold chat_history at 1.
  rewrite init_history_lookup by done. simpl. fold h1. fold s1.
  assert (H1 : s1 !! "chat_history" = Some (VList h1)) by apply lookup_insert_eq.
  unfold relay, append_turn, chat_history. rewrite H1. simpl.
  destruct (completion (api h1)) as [[am cm]|e]; [|done].
  destruct (count_reply _); done.
Qed.

Lemma chat_untyped data api (s : gmap string sval) :
  (∃ e, get_message data = Raise e) ∨ get_message data = Ok "" →
  (chat str data api s).2 = s.
Proof.
  intros [[e H]|H]; unfold chat; by rewrite H.
Qed.

Lemma session_inv_history_ok s : session_inv s → history_ok s.
Proof.
  intros [H _] n E. by rewrite E in H.
Qed.

(** After the seeding, the transcript and the counter are there. *)
Lemma session_inv_seeded s :
  session_inv s →
  (∃ tl, seeded s = system_turn :: tl ∧
     Forall (λ t, role t = user ∨ role t = assistant) tl) ∧
  init_history s !! "bot_response_count" = Some (VInt (replies (seeded s))).
Proof.
  intros [H _]. unfold seeded, init_history.
  destruct (s !! "chat_history") as [[n|h]|] eqn:E; [done| |].
  - destruct H as [(t1 & rest & -> & Hf) Hc]. eauto.
  - rewrite lookup_insert_eq. split; [|done]. eauto.
Qed.

Lemma transcript_shape (tl ts : list turn) :
  Forall (λ t, role t = user ∨ role t = assistant) tl →
  Forall (λ t, role t = user ∨ role t = assistant) ts →
  ts ≠ [] →
  ∃ t1 rest, system_turn :: tl ++ ts = system_turn :: t1 :: rest ∧
    Forall (λ t, role t = user ∨ role t = assistant) (t1 :: rest).
Proof.
  intros Hl Hs Hne.
  assert (Hf : Forall (λ t, role t = user ∨ role t = assistant) (tl ++ ts))
    by by apply Forall_app.
  destruct (tl ++ ts) as [|t1 rest] eqn:E; [|by eauto].
  apply app_eq_nil in E as [_ ?]. done.
Qed.

Lemma chat_inv data api s : session_inv s → session_inv (chat str data api s).2.
Proof.
  intros Hinv.
  destruct (get_message data) as [m|e] eqn:Hm;
    [|by rewrite chat_untyped by eauto].
  destruct (decide (m = "")) as [->|Hne];
    [by rewrite chat_untyped by eauto|].
  pose proof (session_inv_history_ok _ Hinv) as Hok.
  destruct (session_inv_seeded _ Hinv) as [(tl & Hh & Hf) Hc].
  rewrite (chat_typed _ _ _ _ Hm Hne Hok).
  unfold posted.
  assert (Ht : ∀ s' : gmap string sval,
             s' !! "test" = s !! "test" →
             match s' !! "test" with
             | None => True | Some (VInt n) => 0 < n | Some (VList _) => False
             end).
  { intros s' ->. apply Hinv. }
  destruct (completion _) as [[am cm]|e]; simpl.
  - unfold count_reply.
    rewrite lookup_insert_ne by done. rewrite lookup_insert_ne by done.
    rewrite Hc. simpl. split.
    + rewrite lookup_insert_ne by done. rewrite lookup_insert_eq.
      split.
      * rewrite Hh. simpl. rewrite <- app_assoc.
        apply transcript_shape; [done| |done].
        constructor; [by left|]. constructor; [by right|]. constructor.
      * rewrite lookup_insert_eq. rewrite !replies_snoc. simpl.
        do 2 f_equal. lia.
    + apply Ht. rewrite !lookup_insert_ne by done. by apply init_history_other.
  - split.
    + rewrite lookup_insert_eq. split.
      * rewrite Hh. simpl.
        apply transcript_shape; [done| |done].
        constructor; [by left|]. constructor.
      * rewrite lookup_insert_ne by done. rewrite Hc.
        rewrite replies_snoc. simpl. do 2 f_equal. lia.
    + apply Ht. rewrite !lookup_insert_ne by done. by apply init_history_other.
Qed.
Lemma reset_chat_inv s : session_inv (reset_chat s).2.
Proof. by split. Qed.

Lemma session_test_inv s : session_inv s → session_inv (session_test s).2.
Proof.
  intros [Hh Ht]. unfold session_test.
  destruct (s !! "test") as [[n|h]|] eqn:E; simpl; [|done|].
  - split; [by rewrite !lookup_insert_ne by done|].
    rewrite lookup_insert_eq. lia.
  - split; [by rewrite !lookup_insert_ne by done|].
    by rewrite lookup_insert_eq.
Qed.

(** Every session the application holds satisfies the invariant. *)
Lemma reachable_inv s : reachable str s → session_inv s.
Proof.
  induction 1 as [|data api s _ IH|s _ IH|s _ IH].
  - by split.
  - by apply chat_inv.
  - apply reset_chat_inv.
  - by apply session_test_inv.
Qed.

(** *** The completion call *)

Lemma completion_format status body am :
  ¬ (400 ≤ status < 600) → first_choice_content body = Some am →
  completion (Response status (Some body)) = Ok (am, clean_response am).
Proof.
  intros Hst Hb. unfold completion, raise_for_status.
  destruct ((400 <=? status) && (status <? 600)) eqn:E; [lia|]. simpl.
  destruct body as [| | | |?|o]; try done. simpl in *.
  destruct (o !! "choices") as [[| | | |[|[| | | | |c] ?]|]|]; try done.
  simpl in *.
  destruct (c !! "message") as [[| | | | |m]|]; try done. simpl in *.
  destruct (m !! "content") as [[| | |?| |]|]; try done. simpl in *.
  congruence.
Qed.

Lemma completion_inv u am cm :
  completion u = Ok (am, cm) →
  cm = clean_response am ∧
  ∃ status body, u = Response status (Some body) ∧
    ¬ (400 ≤ status < 600) ∧ first_choice_content body = Some am.
Proof.
  destruct u as [e|status body]; [done|]. unfold completion, raise_for_status.
  destruct ((400 <=? status) && (status <? 600)) eqn:E; [done|]. simpl.
  destruct body as [[| | | |?|o]|]; try done. simpl.
  destruct (o !! "choices") as [[| | |[|]|[|[| | | | |c] ?]|]|] eqn:Ec;
    try done. simpl.
  destruct (c !! "message") as [[| | | | |m]|] eqn:Em; try done. simpl.
  destruct (m !! "content") as [[| | |a| |]|] eqn:Ea; try done. simpl.
  intros [= -> <-]. split; [done|]. eexists _, _. split; [done|].
  split; [lia|]. simpl. by rewrite Ec, Em, Ea.
Qed.

Lemma completion_failed u :
  upstream_failed u → ∃ e, completion u = Raise e.
Proof.
  intros H. destruct (completion u) as [[am cm]|e] eqn:E; [|by eauto].
  apply completion_inv in E as (_ & status & body & -> & Hst & Hb).
  simpl in H. rewrite Hb in H. by destruct H.
Qed.

(** *** What an accepted message does *)

(** The completion failed: the session keeps the user turn. *)
Lemma chat_fails data m api (s : gmap string sval) e :
  get_message data = Ok m → m ≠ "" → history_ok s →
  completion (api (posted m s)) = Raise e →
  chat str data api s =
    (Jsonify 500 "error" ("Unexpected error: " +:+ str e),
     <["chat_history" := VList (posted m s)]> (init_history s)).
Proof.
  intros Hm Hne Hs Hc. rewrite (chat_typed _ _ _ _ Hm Hne Hs). simpl.
  by rewrite Hc.
Qed.

(** The completion succeeded, on a session of the application. *)
Lemma chat_replies data m api (s : gmap string sval) am cm :
  get_message data = Ok m → m ≠ "" → session_inv s →
  completion (api (posted m s)) = Ok (am, cm) →
  chat str data api s =
    (Jsonify 200 "reply" cm,
     <["bot_response_count" := VInt (replies (seeded s) + 1)]>
       (<["chat_history" := VList (posted m s ++ [Turn assistant am])]>
          (init_history s))).
Proof.
  intros Hm Hne Hinv Hc.
  rewrite (chat_typed _ _ _ _ Hm Hne (session_inv_history_ok _ Hinv)).
  simpl. rewrite Hc. unfold count_reply.
  destruct (session_inv_seeded _ Hinv) as [_ Hn].
  rewrite !lookup_insert_ne by done. rewrite Hn.
  by rewrite insert_insert_eq.
Qed.

(** A reply comes from an accepted message and a completion. *)
Lemma chat_reply_inv data api (s : gmap string sval) r :
  (chat str data api s).1 = Jsonify 200 "reply" r →
  ∃ m am, get_message data = Ok m ∧ m ≠ "" ∧
    completion (api (posted m s)) = Ok (am, r) ∧
    (chat str data api s).2 !! "chat_history"
      = Some (VList (posted m s ++ [Turn assistant am])).
Proof.
  intros H.
  destruct (get_message data) as [m|e] eqn:Hm;
    [|by unfold chat in H; rewrite Hm in H].
  destruct (decide (m = "")) as [->|Hne];
    [by unfold chat in H; rewrite Hm in H|].
  exists m.
  assert (Hs : history_ok s).
  { intros n Eh. revert H. unfold chat. rewrite Hm.
    destruct (String.eqb_spec m "") as [|_]; [done|].
    unfold effective_message, append_turn, chat_history, init_history.
    repeat (rewrite Eh; simpl). by destruct (String.eqb _ _). }
  rewrite (chat_typed _ _ _ _ Hm Hne Hs) in H |- *. simpl in *.
  destruct (completion _) as [[am cm]|e]; [|done].
  exists am. unfold count_reply in *.
  destruct (_ !! "bot_response_count") as [[n|?]|]; try done.
  simpl in *. injection H as ->. repeat split; try done.
  rewrite lookup_insert_ne by done. by rewrite lookup_insert_eq.
Qed.

(** A completion of the expected format is answered with its cleaned
    content. *)
Lemma chat_replies_to_completion d raw api s status body assistant_message :
  reachable str s →
  d !! "message" = Some (JStr raw) → Py.strip raw ≠ "" →
  api (posted (Py.strip raw) s) = Response status (Some body) →
  ¬ (400 ≤ status < 600) →
  first_choice_content body = Some assistant_message →
  (chat str (JObj d) api s).1
  = Jsonify 200 "reply" (clean_response assistant_message).
Proof.
  intros Hinv%reachable_inv Hd Hne Hu Hst Hb.
  pose proof (completion_format _ _ _ Hst Hb) as Hc. rewrite <- Hu in Hc.
  by rewrite (chat_replies _ _ _ _ _ _ (get_message_lookup _ _ Hd) Hne Hinv Hc).
Qed.

Lemma posted_app m s am :
  posted m s ++ [Turn assistant am]
  = seeded s ++ [Turn user (continued m (seeded s)); Turn assistant am].
Proof. unfold posted. by rewrite <- app_assoc. Qed.

(** ** The claims about [chat] *)

(** C1: when the message is not empty after trimming and the call
    succeeds, the transcript the request worked on has gained the user
    turn with the effective message and then the assistant turn, in that
    order; the assistant turn holds the content of the first choice of
    the completion as it came, and the reply returned is that content
    cleaned. *)
Theorem chat_success_appends_user_then_assistant d raw api s r :
  d !! "message" = Some (JStr raw) → Py.strip raw ≠ "" →
  (chat str (JObj d) api s).1 = Jsonify 200 "reply" r →
  ∃ status body assistant_message,
    api (posted (Py.strip raw) s) = Response status (Some body) ∧
    first_choice_content body = Some assistant_message ∧
    r = clean_response assistant_message ∧
    (chat str (JObj d) api s).2 !! "chat_history"
      = Some (VList (seeded s ++
           [Turn user (continued (Py.strip raw) (seeded s));
            Turn assistant assistant_message])).
Proof.
  intros Hd Hne H.
  apply chat_reply_inv in H as (m & am & Hm & _ & Hc & Hh).
  rewrite (get_message_lookup _ _ Hd) in Hm. injection Hm as <-.
  apply completion_inv in Hc as (-> & status & body & Hu & _ & Hb).
  exists status, body, am. by rewrite <- posted_app.
Qed.

(** C2: in every session of the application that has a transcript, the
    transcript is the system turn with the persona text followed by user
    and assistant turns only, so it holds exactly one system turn and
    that turn comes first; and where there is no transcript the handler
    seeds it with that one turn and sets the reply counter to zero. *)
Theorem transcript_begins_with_one_system_turn s :
  reachable str s →
  (∀ v, s !! "chat_history" = Some v →
     ∃ rest, v = VList (system_turn :: rest) ∧
       Forall (λ t, role t = user ∨ role t = assistant) rest) ∧
  (s !! "chat_history" = None →
     init_history s !! "chat_history" = Some (VList [system_turn]) ∧
     init_history s !! "bot_response_count" = Some (VInt 0)).
Proof.
  intros [Hh _]%reachable_inv. split.
  - intros v E. rewrite E in Hh. destruct v as [n|h]; [done|].
    destruct Hh as [(t1 & rest & -> & Hf) _]. eauto.
  - intros E. unfold init_history. rewrite E.
    rewrite lookup_insert_ne by done. by rewrite !lookup_insert_eq.
Qed.

(** C3, as amended: when the message is accepted and the completion call
    fails (the request raises, the status is a 4xx or 5xx error status,
    or the body is not a completion), the handler answers 500 with the
    description of the exception, the transcript is the one the request
    worked on plus the user turn, and the reply counter is unchanged. *)
Theorem chat_upstream_failure_keeps_user_turn s d raw api :
  reachable str s →
  d !! "message" = Some (JStr raw) → Py.strip raw ≠ "" →
  upstream_failed (api (posted (Py.strip raw) s)) →
  ∃ e,
    (chat str (JObj d) api s).1
      = Jsonify 500 "error" ("Unexpected error: " +:+ str e) ∧
    (∀ e0, api (posted (Py.strip raw) s) = Raised e0 → e = e0) ∧
    (chat str (JObj d) api s).2 !! "chat_history"
      = Some (VList (seeded s ++
           [Turn user (continued (Py.strip raw) (seeded s))])) ∧
    reply_count (chat str (JObj d) api s).2 = reply_count s.
Proof.
  intros Hinv%reachable_inv Hd Hne Hf.
  apply completion_failed in Hf as [e He]. exists e.
  rewrite (chat_fails _ _ _ _ _ (get_message_lookup _ _ Hd) Hne
             (session_inv_history_ok _ Hinv) He). simpl.
  split; [done|]. split.
  { intros e0 E0. rewrite E0 in He. simpl in He. congruence. }
  rewrite lookup_insert_eq. split; [done|].
  unfold reply_count. rewrite lookup_insert_ne by done.
  destruct (session_inv_seeded _ Hinv) as [_ Hn]. rewrite Hn.
  destruct Hinv as [Hh _]. unfold seeded.
  destruct (s !! "chat_history") as [[n|h]|]; [done| |].
  - by destruct Hh as [_ ->].
  - by rewrite Hh.
Qed.

(** C4: a message that is empty or made of white space only is answered
    400 with "Please enter a message." and the session is left as it
    was, whatever it holds. *)
Theorem chat_blank_message_rejected d raw api s :
  d !! "message" = Some (JStr raw) → Py.all Py.isspace raw = true →
  chat str (JObj d) api s
  = (Jsonify 400 "error" "Please enter a message.", s).
Proof.
  intros Hd Hb. unfold chat. rewrite (get_message_lookup _ _ Hd).
  by rewrite strip_blank.
Qed.

(** C5: in a session of the application whose transcript has at least
    one turn, a message that trims to "continue" in any letter case is
    stored as "Continue from where you left off: " followed by the
    content of the last turn of the transcript. *)
Theorem chat_continue_rewrites_message s d raw api h :
  reachable str s →
  s !! "chat_history" = Some (VList h) → (1 ≤ length h)%nat →
  d !! "message" = Some (JStr raw) →
  Py.lower (Py.strip raw) = "continue" →
  ∃ t rest,
    last h = Some t ∧
    (chat str (JObj d) api s).2 !! "chat_history"
      = Some (VList (h ++
           Turn user ("Continue from where you left off: " +:+ content t)
           :: rest)) ∧
    (rest = [] ∨ ∃ assistant_message, rest = [Turn assistant assistant_message]).
Proof.
  intros Hinv%reachable_inv Eh _ Hd Hl.
  assert (Hne : Py.strip raw ≠ "") by (intros E; by rewrite E in Hl).
  pose proof (get_message_lookup _ _ Hd) as Hm.
  pose proof (session_inv_history_ok _ Hinv) as Hok.
  assert (Hs : seeded s = h) by (unfold seeded; by rewrite Eh).
  destruct Hinv as [Hh Ht]. rewrite Eh in Hh.
  destruct Hh as [(t1 & rest0 & -> & _) Hn].
  destruct (last (system_turn :: t1 :: rest0)) as [t|] eqn:El;
    [|by apply last_None in El].
  assert (Hc : continued (Py.strip raw) (system_turn :: t1 :: rest0)
               = "Continue from where you left off: " +:+ content t).
  { unfold continued. rewrite Hl, El. done. }
  exists t.
  destruct (completion (api (posted (Py.strip raw) s))) as [[am cm]|e] eqn:E.
  - exists [Turn assistant am].
    rewrite (chat_typed _ _ _ _ Hm Hne Hok). simpl. rewrite E.
    unfold count_reply. rewrite !lookup_insert_ne by done.
    unfold init_history at 1. rewrite Eh, Hn. simpl.
    rewrite lookup_insert_ne by done. rewrite lookup_insert_eq.
    rewrite posted_app, Hs, Hc. eauto.
  - exists []. rewrite (chat_fails _ _ _ _ _ Hm Hne Hok E). simpl.
    rewrite lookup_insert_eq. unfold posted. rewrite Hs, Hc. eauto.
Qed.

(** C6: the reset answers with its message and leaves the empty
    session, whatever the session was; the next accepted message then
    finds no transcript, so the transcript starts with the system turn,
    followed by the user turn with the trimmed message and, when the
    completion succeeds, by the assistant turn. *)
Theorem reset_then_chat_reseeds_transcript s d raw api :
  d !! "message" = Some (JStr raw) → Py.strip raw ≠ "" →
  reset_chat s = (Jsonify 200 "message" "Chat history has been reset.", ∅) ∧
  ∃ rest,
    (chat str (JObj d) api (reset_chat s).2).2 !! "chat_history"
      = Some (VList (system_turn :: Turn user (Py.strip raw) :: rest)) ∧
    (rest = [] ∨ ∃ assistant_message, rest = [Turn assistant assistant_message]).
Proof.
  intros Hd Hne. split; [done|]. simpl.
  pose proof (get_message_lookup _ _ Hd) as Hm.
  assert (Hok : history_ok ∅) by done.
  assert (Hp : posted (Py.strip raw) ∅ = [system_turn; Turn user (Py.strip raw)]).
  { unfold posted, continued, seeded. rewrite lookup_empty. simpl.
    by rewrite andb_false_r. }
  destruct (completion (api (posted (Py.strip raw) ∅))) as [[am cm]|e] eqn:E.
  - exists [Turn assistant am].
    rewrite (chat_replies _ _ _ _ _ _ Hm Hne (reachable_inv _ (reachable_new str)) E).
    simpl. rewrite lookup_insert_ne by done. rewrite lookup_insert_eq.
    rewrite Hp. eauto.
  - exists []. rewrite (chat_fails _ _ _ _ _ Hm Hne Hok E). simpl.
    rewrite lookup_insert_eq, Hp. eauto.
Qed.

Lemma session_inv_reply_count s :
  session_inv s → reply_count s = replies (transcript s).
Proof.
  intros [Hh _]. unfold reply_count, transcript.
  destruct (s !! "chat_history") as [[n|h]|]; [done| |].
  - by destruct Hh as [_ ->].
  - by rewrite Hh.
Qed.

Lemma session_inv_replies_seeded s :
  session_inv s → replies (seeded s) = reply_count s.
Proof.
  intros Hinv. rewrite (session_inv_reply_count _ Hinv).
  destruct Hinv as [Hh _]. unfold seeded, transcript.
  by destruct (s !! "chat_history") as [[n|h]|].
Qed.

(** C8: in every session of the application the reply counter is the
    number of assistant turns of the transcript (zero, and no turn, in a
    session without transcript); a chat request answered with a reply
    leaves the counter one higher than it found it; and two such
    requests in a row on a new session leave it at 2. *)
Theorem reply_count_counts_assistant_turns s :
  reachable str s →
  reply_count s = replies (transcript s) ∧
  (∀ data api r,
     (chat str data api s).1 = Jsonify 200 "reply" r →
     reply_count (chat str data api s).2 = reply_count s + 1) ∧
  (∀ data1 api1 r1 data2 api2 r2,
     (chat str data1 api1 ∅).1 = Jsonify 200 "reply" r1 →
     (chat str data2 api2 (chat str data1 api1 ∅).2).1
       = Jsonify 200 "reply" r2 →
     reply_count (∅ : gmap string sval) = 0 ∧
     reply_count (chat str data2 api2 (chat str data1 api1 ∅).2).2 = 2).
Proof.
  assert (Hstep : ∀ s data api r,
            session_inv s →
            (chat str data api s).1 = Jsonify 200 "reply" r →
            reply_count (chat str data api s).2 = reply_count s + 1).
  { intros s0 data api r Hinv H.
    pose proof H as (m & am & Hm & Hne & Hc & _)%chat_reply_inv.
    rewrite (chat_replies _ _ _ _ _ _ Hm Hne Hinv Hc). simpl.
    unfold reply_count at 1. rewrite lookup_insert_eq.
    by rewrite session_inv_replies_seeded. }
  intros Hinv%reachable_inv. split; [by apply session_inv_reply_count|].
  split; [intros; by eapply Hstep|].
  intros data1 api1 r1 data2 api2 r2 H1 H2. split; [done|].
  pose proof (reachable_inv _ (reachable_new str)) as H0.
  rewrite (Hstep _ _ _ _ (chat_inv _ _ _ H0) H2).
  by rewrite (Hstep _ _ _ _ H0 H1).
Qed.

(** C9: a request body without the "message" key gets the answer of an
    empty message, 400 with "Please enter a message.", and the session
    is left as it was. *)
Theorem chat_missing_message_rejected d api s :
  d !! "message" = None →
  chat str (JObj d) api s
  = (Jsonify 400 "error" "Please enter a message.", s) ∧
  chat str (JObj d) api s
  = chat str (JObj (<["message" := JStr ""]> d)) api s.
Proof.
  intros Hd. unfold chat, get_message.
  by rewrite Hd, lookup_insert_eq.
Qed.

(** C10: in every session of the application, the diagnostic stores
    under "test" one more than it found there, zero standing for a
    missing key, answers with that number, and leaves every other key of
    the session, the transcript and the reply counter among them, as it
    was. *)
Theorem session_test_increments_only_test s :
  reachable str s →
  ∃ n,
    default (VInt 0) (s !! "test") = VInt n ∧
    (session_test s).1 = Plain ("Session count: " +:+ Py.str_int (n + 1)) ∧
    (session_test s).2 !! "test" = Some (VInt (n + 1)) ∧
    (∀ k, k ≠ "test" → (session_test s).2 !! k = s !! k).
Proof.
  intros [_ Ht]%reachable_inv. unfold session_test.
  destruct (s !! "test") as [[n|h]|]; [exists n|done|exists 0]; simpl.
  - rewrite lookup_insert_eq. repeat split.
    intros k Hk. by rewrite lookup_insert_ne.
  - rewrite lookup_insert_eq. repeat split.
    intros k Hk. by rewrite lookup_insert_ne.
Qed.

End Properties.

(** ** The claims on concrete requests *)

(** An API that answers 200 with the completion [s]. *)
Definition api_completes (s : string) (messages : list turn) : upstream :=
  Response 200 (Some (completion_body s)).

(** The session after the message "hi" was answered "**yo**". *)
Definition session_after_hi : gmap string sval :=
  (chat str_sample (JObj (message_body "hi")) (api_completes "**yo**") ∅).2.

Lemma session_after_hi_reachable : reachable str_sample session_after_hi.
Proof. apply reachable_chat, reachable_new. Qed.

Lemma session_after_hi_history :
  session_after_hi !! "chat_history"
  = Some (VList [system_turn; Turn user "hi"; Turn assistant "**yo**"]).
Proof. reflexivity. Qed.

Lemma chat_success_appends_user_then_assistant_witness :
  message_body " hi " !! "message" = Some (JStr " hi ") ∧
  Py.strip " hi " ≠ "" ∧
  (chat str_sample (JObj (message_body " hi ")) (api_completes "**yo**") ∅).1
    = Jsonify 200 "reply" "yo" ∧
  ∃ status body assistant_message,
    api_completes "**yo**" (posted (Py.strip " hi ") ∅)
      = Response status (Some body) ∧
    first_choice_content body = Some assistant_message ∧
    "yo" = clean_response assistant_message ∧
    (chat str_sample (JObj (message_body " hi ")) (api_completes "**yo**") ∅).2
      !! "chat_history"
      = Some (VList (seeded ∅ ++
           [Turn user (continued (Py.strip " hi ") (seeded ∅));
            Turn assistant assistant_message])).
Proof.
  split; [reflexivity|]. split; [vm_compute; discriminate|].
  split; [reflexivity|].
  apply (chat_success_appends_user_then_assistant str_sample
           (message_body " hi ") " hi " (api_completes "**yo**") ∅ "yo");
    [reflexivity | vm_compute; discriminate | reflexivity].
Defined.

Lemma transcript_begins_with_one_system_turn_witness :
  reachable str_sample session_after_hi ∧
  ∃ rest,
    VList [system_turn; Turn user "hi"; Turn assistant "**yo**"]
      = VList (system_turn :: rest) ∧
    Forall (λ t, role t = user ∨ role t = assistant) rest.
Proof.
  split; [apply reachable_chat, reachable_new|].
  apply (proj1 (transcript_begins_with_one_system_turn str_sample
                  session_after_hi
                  (reachable_chat _ _ _ _ (reachable_new _)))).
  reflexivity.
Defined.

Lemma chat_upstream_failure_keeps_user_turn_witness :
  reachable str_sample session_after_hi ∧
  upstream_failed (Response 503 None) ∧
  ∃ e,
    (chat str_sample (JObj (message_body "more")) (λ _, Response 503 None)
       session_after_hi).1
      = Jsonify 500 "error" ("Unexpected error: " +:+ str_sample e) ∧
    (∀ e0, Response 503 None = Raised e0 → e = e0) ∧
    (chat str_sample (JObj (message_body "more")) (λ _, Response 503 None)
       session_after_hi).2 !! "chat_history"
      = Some (VList (seeded session_after_hi ++
           [Turn user (continued (Py.strip "more") (seeded session_after_hi))])) ∧
    reply_count
      (chat str_sample (JObj (message_body "more")) (λ _, Response 503 None)
         session_after_hi).2
      = reply_count session_after_hi.
Proof.
  split; [apply reachable_chat, reachable_new|].
  split; [left; lia|].
  apply (chat_upstream_failure_keeps_user_turn str_sample session_after_hi
           (message_body "more") "more" (λ _, Response 503 None));
    [apply reachable_chat, reachable_new | reflexivity
    | vm_compute; discriminate | left; lia].
Defined.

(** C3 as the specification words it, with "any status outside 200-299":
    a response with status 300 and a well-formed completion is not an
    error for [raise_for_status], so the handler replies, appends the
    assistant turn and counts the reply. *)
Lemma chat_status_300_is_answered :
  reachable str_sample ∅ ∧
  message_body "hi" !! "message" = Some (JStr "hi") ∧
  Py.strip "hi" ≠ "" ∧
  upstream_failed_non_2xx (Response 300 (Some (completion_body "ok"))) ∧
  (chat str_sample (JObj (message_body "hi"))
     (λ _, Response 300 (Some (completion_body "ok"))) ∅).1
    = Jsonify 200 "reply" "ok" ∧
  (chat str_sample (JObj (message_body "hi"))
     (λ _, Response 300 (Some (completion_body "ok"))) ∅).2 !! "chat_history"
    = Some (VList [system_turn; Turn user "hi"; Turn assistant "ok"]) ∧
  reply_count
    (chat str_sample (JObj (message_body "hi"))
       (λ _, Response 300 (Some (completion_body "ok"))) ∅).2 = 1 ∧
  reply_count (∅ : gmap string sval) = 0.
Proof.
  split; [apply reachable_new|]. split; [reflexivity|].
  split; [vm_compute; discriminate|]. split; [left; lia|].
  repeat split; reflexivity.
Defined.

Lemma chat_blank_message_rejected_witness :
  message_body (String " " (String LF " ")) !! "message"
    = Some (JStr (String " " (String LF " "))) ∧
  Py.all Py.isspace (String " " (String LF " ")) = true ∧
  chat str_sample (JObj (message_body (String " " (String LF " "))))
    (api_completes "ok") session_after_hi
  = (Jsonify 400 "error" "Please enter a message.", session_after_hi).
Proof.
  split; [reflexivity|]. split; [reflexivity|].
  apply (chat_blank_message_rejected str_sample
           (message_body (String " " (String LF " ")))
           (String " " (String LF " "))); reflexivity.
Defined.

Lemma chat_continue_rewrites_message_witness :
  reachable str_sample session_after_hi ∧
  Py.lower (Py.strip " CoNtInUe ") = "continue" ∧
  ∃ t rest,
    last [system_turn; Turn user "hi"; Turn assistant "**yo**"] = Some t ∧
    (chat str_sample (JObj (message_body " CoNtInUe ")) (api_completes "more")
       session_after_hi).2 !! "chat_history"
      = Some (VList ([system_turn; Turn user "hi"; Turn assistant "**yo**"] ++
           Turn user ("Continue from where you left off: " +:+ content t)
           :: rest)) ∧
    (rest = [] ∨ ∃ assistant_message, rest = [Turn assistant assistant_message]).
Proof.
  split; [apply reachable_chat, reachable_new|]. split; [reflexivity|].
  apply (chat_continue_rewrites_message str_sample session_after_hi
           (message_body " CoNtInUe ") " CoNtInUe " (api_completes "more"));
    [apply reachable_chat, reachable_new | reflexivity | simpl; lia
    | reflexivity | reflexivity].
Defined.

Lemma reset_then_chat_reseeds_transcript_witness :
  Py.strip " again " ≠ "" ∧
  reset_chat session_after_hi
    = (Jsonify 200 "message" "Chat history has been reset.", ∅) ∧
  ∃ rest,
    (chat str_sample (JObj (message_body " again ")) (api_completes "sure")
       (reset_chat session_after_hi).2).2 !! "chat_history"
      = Some (VList (system_turn :: Turn user (Py.strip " again ") :: rest)) ∧
    (rest = [] ∨ ∃ assistant_message, rest = [Turn assistant assistant_message]).
Proof.
  split; [vm_compute; discriminate|].
  apply (reset_then_chat_reseeds_transcript str_sample session_after_hi
           (message_body " again ") " again " (api_completes "sure"));
    [reflexivity | vm_compute; discriminate].
Defined.

Lemma reply_count_counts_assistant_turns_witness :
  reachable str_sample ∅ ∧
  reply_count (∅ : gmap string sval) = 0 ∧
  reply_count
    (chat str_sample (JObj (message_body "continue")) (api_completes "more")
       (chat str_sample (JObj (message_body "hi")) (api_completes "**yo**")
          ∅).2).2 = 2.
Proof.
  split; [apply reachable_new|].
  apply (proj2 (proj2 (reply_count_counts_assistant_turns str_sample ∅
                         (reachable_new _)))
           (JObj (message_body "hi")) (api_completes "**yo**") "yo"
           (JObj (message_body "continue")) (api_completes "more") "more");
    reflexivity.
Defined.

Lemma chat_missing_message_rejected_witness :
  (∅ : gmap string json) !! "message" = None ∧
  chat str_sample (JObj ∅) (api_completes "ok") session_after_hi
  = (Jsonify 400 "error" "Please enter a message.", session_after_hi) ∧
  chat str_sample (JObj ∅) (api_completes "ok") session_after_hi
  = chat str_sample (JObj (<["message" := JStr ""]> ∅)) (api_completes "ok")
      session_after_hi.
Proof.
  split; [reflexivity|].
  apply (chat_missing_message_rejected str_sample ∅ (api_completes "ok")
           session_after_hi).
  reflexivity.
Defined.

Lemma session_test_increments_only_test_witness :
  reachable str_sample (session_test session_after_hi).2 ∧
  ∃ n,
    default (VInt 0) ((session_test session_after_hi).2 !! "test") = VInt n ∧
    (session_test (session_test session_after_hi).2).1
      = Plain ("Session count: " +:+ Py.str_int (n + 1)) ∧
    (session_test (session_test session_after_hi).2).2 !! "test"
      = Some (VInt (n + 1)) ∧
    (∀ k, k ≠ "test" →
       (session_test (session_test session_after_hi).2).2 !! k
       = (session_test session_after_hi).2 !! k).
Proof.
  split; [apply reachable_test, reachable_chat, reachable_new|].
  apply (session_test_increments_only_test str_sample
           (session_test session_after_hi).2).
  apply reachable_test, reachable_chat, reachable_new.
Defined.

(** ** More on [clean_response] *)

(** No position of [s] starts a match of [\n\s*\n]. *)
Fixpoint blank_free (s : string) : bool :=
  match s with
  | EmptyString => true
  | String c r =>
      negb (Ascii.eqb c LF && bool_decide (is_Some (match_blank r)))
      && blank_free r
  end.

Definition plain_char (c : ascii) : bool := negb (is_markdown c).

Lemma isspace_LF c : Ascii.eqb c LF = true → Py.isspace c = true.
Proof. intros ->%Ascii.eqb_eq. reflexivity. Qed.

Lemma not_space_not_LF c : Py.isspace c = false → Ascii.eqb c LF = false.
Proof.
  intros H. destruct (Ascii.eqb c LF) eqn:E; [|done].
  apply isspace_LF in E. congruence.
Qed.

Lemma string_app_length (s t : string) :
  String.length (s +:+ t) = (String.length s + String.length t)%nat.
Proof. induction s as [|c r IH]; simpl; [done|]. by rewrite IH. Qed.

(** *** Markdown characters *)

Lemma remove_markdown_plain t : Py.all plain_char (remove_markdown t) = true.
Proof.
  induction t as [|c r IH]; simpl; [done|].
  destruct (is_markdown c) eqn:E; [done|]. simpl.
  unfold plain_char at 1. by rewrite E.
Qed.

Lemma remove_markdown_id t : Py.all plain_char t = true → remove_markdown t = t.
Proof.
  induction t as [|c r IH]; simpl; [done|].
  intros [Hc Hr]%andb_prop. unfold plain_char in Hc.
  destruct (is_markdown c); [done|]. by rewrite IH.
Qed.

Lemma all_app p (s t : string) :
  Py.all p (s +:+ t) = Py.all p s && Py.all p t.
Proof.
  induction s as [|c r IH]; simpl; [done|]. by rewrite IH, andb_assoc.
Qed.

Lemma sub_blank_all p n t :
  Py.all p "<br><br>" = true → Py.all p t = true →
  Py.all p (sub_blank n t) = true.
Proof.
  intros Hbr. revert n. induction t as [|c r IH]; intros n; simpl; [done|].
  intros [Hc Hr]%andb_prop. destruct n as [|k]; [|by apply IH].
  destruct (Ascii.eqb c LF).
  - destruct (match_blank r) as [m|].
    + change (Py.all p ("<br><br>" +:+ sub_blank m r) = true).
      rewrite all_app, Hbr. by apply IH.
    + simpl. rewrite Hc. by apply IH.
  - simpl. rewrite Hc. by apply IH.
Qed.

Lemma lstrip_all p t : Py.all p t = true → Py.all p (Py.lstrip t) = true.
Proof.
  induction t as [|c r IH]; simpl; [done|].
  intros H. destruct (Py.isspace c); [|done].
  apply andb_prop in H as [_ ?]. auto.
Qed.

Lemma rstrip_all p t : Py.all p t = true → Py.all p (Py.rstrip t) = true.
Proof.
  induction t as [|c r IH]; simpl; [done|].
  intros [Hc Hr]%andb_prop. specialize (IH Hr).
  destruct (Py.rstrip r) as [|c' r'].
  - destruct (Py.isspace c); [done|]. simpl. by rewrite Hc.
  - simpl in *. by rewrite Hc.
Qed.

Lemma strip_all p t : Py.all p t = true → Py.all p (Py.strip t) = true.
Proof. intros H. by apply rstrip_all, lstrip_all. Qed.

Lemma clean_response_plain_chars t :
  Py.all plain_char (clean_response t) = true.
Proof.
  unfold clean_response. apply strip_all, sub_blank_all; [done|].
  apply remove_markdown_plain.
Qed.

(** *** Blank lines *)

Lemma match_blank_sub_blank r :
  match_blank r = None → match_blank (sub_blank 0 r) = None.
Proof.
  induction r as [|c r IH]; simpl; [done|].
  destruct (Py.isspace c) eqn:Hs.
  - destruct (match_blank r) as [m|] eqn:Em; [done|].
    destruct (Ascii.eqb c LF) eqn:El; [done|]. intros _. simpl.
    by rewrite Hs, IH, El.
  - rewrite (not_space_not_LF _ Hs). intros _. simpl.
    by rewrite Hs, (not_space_not_LF _ Hs).
Qed.

Lemma blank_free_sub_blank n t : blank_free (sub_blank n t) = true.
Proof.
  revert n. induction t as [|c r IH]; intros n; simpl; [done|].
  destruct n as [|k]; [|by apply IH].
  destruct (Ascii.eqb c LF) eqn:El.
  - destruct (match_blank r) as [m|] eqn:Em.
    + simpl. apply IH.
    + simpl. rewrite El, (match_blank_sub_blank _ Em). simpl. apply IH.
  - simpl. rewrite El. simpl. apply IH.
Qed.

Lemma sub_blank_id t : blank_free t = true → sub_blank 0 t = t.
Proof.
  induction t as [|c r IH]; simpl; [done|].
  intros [Hc Hr]%andb_prop. rewrite (IH Hr).
  destruct (Ascii.eqb c LF); [|done].
  destruct (match_blank r); [done|done].
Qed.

Lemma blank_free_lstrip t : blank_free t = true → blank_free (Py.lstrip t) = true.
Proof.
  induction t as [|c r IH]; simpl; [done|].
  intros H. destruct (Py.isspace c); [|done].
  apply andb_prop in H as [_ ?]. auto.
Qed.

Lemma match_blank_rstrip r :
  match_blank r = None → match_blank (Py.rstrip r) = None.
Proof.
  induction r as [|c r IH]; simpl; [done|].
  destruct (Py.isspace c) eqn:Hs.
  - destruct (match_blank r) as [m|] eqn:Em; [done|].
    destruct (Ascii.eqb c LF) eqn:El; [done|]. intros _.
    specialize (IH eq_refl).
    destruct (Py.rstrip r) as [|c' r'] eqn:Er; [done|].
    simpl in *. by rewrite Hs, IH, El.
  - rewrite (not_space_not_LF _ Hs). intros _.
    destruct (Py.rstrip r) as [|c' r'] eqn:Er; simpl;
      by rewrite Hs, (not_space_not_LF _ Hs).
Qed.

Lemma blank_free_rstrip t : blank_free t = true → blank_free (Py.rstrip t) = true.
Proof.
  induction t as [|c r IH]; simpl; [done|].
  intros [Hc Hr]%andb_prop. specialize (IH Hr).
  assert (Hm : negb (Ascii.eqb c LF
                 && bool_decide (is_Some (match_blank (Py.rstrip r)))) = true).
  { destruct (Ascii.eqb c LF); [|done]. simpl in *.
    destruct (match_blank r) as [m|] eqn:Em.
    - rewrite bool_decide_eq_true_2 in Hc by eauto. done.
    - by rewrite (match_blank_rstrip _ Em). }
  destruct (Py.rstrip r) as [|c' r'] eqn:Er.
  - destruct (Py.isspace c); [done|]. simpl. by rewrite andb_true_r.
  - change (blank_free (String c (String c' r')) = true).
    simpl. simpl in Hm, IH. by rewrite Hm, IH.
Qed.

Lemma clean_response_blank_free t : blank_free (clean_response t) = true.
Proof.
  unfold clean_response. apply blank_free_rstrip, blank_free_lstrip.
  apply blank_free_sub_blank.
Qed.

(** *** Trimming *)

Lemma rstrip_head c r :
  Py.isspace c = false → ∃ r', Py.rstrip (String c r) = String c r'.
Proof.
  intros Hc. simpl. destruct (Py.rstrip r); rewrite ?Hc; eauto.
Qed.

Lemma rstrip_idem t : Py.rstrip (Py.rstrip t) = Py.rstrip t.
Proof.
  induction t as [|c r IH]; simpl; [done|].
  destruct (Py.rstrip r) as [|c' r'] eqn:Er.
  - destruct (Py.isspace c) eqn:Hc; [done|]. simpl. by rewrite Hc.
  - change (Py.rstrip (String c (String c' r')) = String c (String c' r')).
    simpl. simpl in IH. rewrite IH. done.
Qed.

Lemma lstrip_strip t : Py.lstrip (Py.strip t) = Py.strip t.
Proof.
  unfold Py.strip.
  destruct (lstrip_head t) as [->|(c & r & -> & Hc)]; [done|].
  destruct (rstrip_head c r Hc) as [r' ->]. simpl. by rewrite Hc.
Qed.

Lemma rstrip_strip t : Py.rstrip (Py.strip t) = Py.strip t.
Proof. apply rstrip_idem. Qed.

Lemma strip_idem t : Py.strip (Py.strip t) = Py.strip t.
Proof. unfold Py.strip at 1. by rewrite lstrip_strip, rstrip_strip. Qed.

(** *** Length *)

Lemma match_blank_bounds r n :
  match_blank r = Some n → (1 ≤ n ≤ String.length r)%nat.
Proof.
  revert n. induction r as [|c r IH]; intros n; simpl; [done|].
  destruct (if Py.isspace c then match_blank r else None) as [m|] eqn:E.
  - intros [= <-]. destruct (Py.isspace c); [|done].
    apply IH in E. lia.
  - destruct (Ascii.eqb c LF); [|done]. intros [= <-]. lia.
Qed.

Lemma sub_blank_length n t :
  (String.length (sub_blank n t) ≤ 4 * (String.length t - n))%nat.
Proof.
  revert n. induction t as [|c r IH]; intros n; simpl; [lia|].
  destruct n as [|k]; [|apply IH].
  destruct (Ascii.eqb c LF).
  - destruct (match_blank r) as [m|] eqn:Em.
    + apply match_blank_bounds in Em. rewrite string_app_length. simpl.
      specialize (IH m). lia.
    + simpl. specialize (IH 0%nat). lia.
  - simpl. specialize (IH 0%nat). lia.
Qed.

Lemma remove_markdown_length t :
  (String.length (remove_markdown t) ≤ String.length t)%nat.
Proof.
  induction t as [|c r IH]; simpl; [done|].
  destruct (is_markdown c); simpl; lia.
Qed.

Lemma lstrip_length t : (String.length (Py.lstrip t) ≤ String.length t)%nat.
Proof.
  induction t as [|c r IH]; simpl; [done|].
  destruct (Py.isspace c); simpl; lia.
Qed.

Lemma rstrip_length t : (String.length (Py.rstrip t) ≤ String.length t)%nat.
Proof.
  induction t as [|c r IH]; simpl; [done|].
  destruct (Py.rstrip r); [destruct (Py.isspace c)|]; simpl in *; lia.
Qed.

(** *** The properties of [clean_response] *)

(** X1: the cleaned text holds none of the characters # * _ ~ and the
    backquote, whatever the text was. *)
Theorem clean_response_has_no_markdown t :
  Py.all (λ c, negb (is_markdown c)) (clean_response t) = true.
Proof. apply clean_response_plain_chars. Qed.

(** X2: the cleaned text has no white space at either end: trimming it
    again on the left or on the right gives it back. *)
Theorem clean_response_is_trimmed t :
  Py.lstrip (clean_response t) = clean_response t ∧
  Py.rstrip (clean_response t) = clean_response t.
Proof.
  unfold clean_response. split; [apply lstrip_strip|apply rstrip_strip].
Qed.

(** X3: no blank line is left in the cleaned text: at no position does a
    line feed come with only white space between it and a next line
    feed. *)
Theorem clean_response_has_no_blank_line t :
  blank_free (clean_response t) = true.
Proof. apply clean_response_blank_free. Qed.

(** X4: cleaning is idempotent: a cleaned text is cleaned to itself. *)
Theorem clean_response_idempotent t :
  clean_response (clean_response t) = clean_response t.
Proof.
  unfold clean_response at 1.
  rewrite (remove_markdown_id _ (clean_response_plain_chars t)).
  rewrite (sub_blank_id _ (clean_response_blank_free t)).
  unfold clean_response. apply strip_idem.
Qed.

(** X5: the cleaned text is at most four times as long as the text: the
    shortest blank-line sequence, two line feeds, becomes the eight
    characters of the paragraph break, and that text reaches the bound. *)
Theorem clean_response_length_bound t :
  (String.length (clean_response t) ≤ 4 * String.length t)%nat ∧
  String.length (clean_response (String LF (String LF "")))
  = (4 * String.length (String LF (String LF "")))%nat.
Proof.
  split; [|reflexivity]. unfold clean_response, Py.strip.
  pose proof (rstrip_length (Py.lstrip (sub_blank 0 (remove_markdown t)))).
  pose proof (lstrip_length (sub_blank 0 (remove_markdown t))).
  pose proof (sub_blank_length 0 (remove_markdown t)).
  pose proof (remove_markdown_length t). lia.
Qed.

(** X6: a text without markdown characters and without blank lines is
    only trimmed. *)
Theorem clean_response_plain_text t :
  Py.all (λ c, negb (is_markdown c)) t = true → blank_free t = true →
  clean_response t = Py.strip t.
Proof.
  intros Hp Hb. unfold clean_response.
  by rewrite (remove_markdown_id _ Hp), (sub_blank_id _ Hb).
Qed.

Lemma clean_response_plain_text_witness :
  Py.all (λ c, negb (is_markdown c)) (" Mix well." +:+ String LF "Serve. ") = true ∧
  blank_free (" Mix well." +:+ String LF "Serve. ") = true ∧
  clean_response (" Mix well." +:+ String LF "Serve. ")
  = Py.strip (" Mix well." +:+ String LF "Serve. ").
Proof.
  split; [reflexivity|]. split; [reflexivity|].
  apply (clean_response_plain_text (" Mix well." +:+ String LF "Serve. "));
    reflexivity.
Defined.

(** ** More on the handlers *)

Section MoreProperties.

Variable str : exn → string.

(** A transcript that is an integer: the handler raises before it changes
    anything. *)
Lemma chat_int_history data api (s : gmap string sval) n :
  s !! "chat_history" = Some (VInt n) →
  (chat str data api s).2 = s ∧
  ∀ r, (chat str data api s).1 ≠ Jsonify 500 "error" r.
Proof.
  intros Eh. unfold chat.
  destruct (get_message data) as [m|e]; [|done].
  destruct (String.eqb m ""); [done|].
  unfold effective_message, append_turn, chat_history, init_history.
  repeat (rewrite Eh; simpl). by destruct (String.eqb _ _).
Qed.

(** What a request leaves of the session: it is untouched, or it holds the
    posted transcript, or the posted transcript and the assistant turn. *)
Lemma chat_outcome data api (s : gmap string sval) :
  history_ok s →
  (chat str data api s).2 = s ∨
  ∃ m, get_message data = Ok m ∧ m ≠ "" ∧
    ((chat str data api s).2 !! "chat_history" = Some (VList (posted m s)) ∨
     ∃ am cm, completion (api (posted m s)) = Ok (am, cm) ∧
       (chat str data api s).2 !! "chat_history"
       = Some (VList (posted m s ++ [Turn assistant am]))).
Proof.
  intros Hs.
  destruct (get_message data) as [m|e] eqn:Hm;
    [|left; apply chat_untyped; eauto].
  destruct (decide (m = "")) as [->|Hne];
    [left; apply chat_untyped; eauto|].
  right. exists m. split; [done|]. split; [done|].
  rewrite (chat_typed _ _ _ _ _ Hm Hne Hs). simpl.
  destruct (completion _) as [[am cm]|e] eqn:Ec.
  - right. exists am, cm. split; [done|]. unfold count_reply.
    destruct (_ !! "bot_response_count") as [[n|?]|]; simpl;
      rewrite ?lookup_insert_ne by done; by rewrite lookup_insert_eq.
  - left. simpl. by rewrite lookup_insert_eq.
Qed.

Lemma history_ok_cases (s : gmap string sval) :
  history_ok s ∨ ∃ n, s !! "chat_history" = Some (VInt n).
Proof.
  destruct (s !! "chat_history") as [[n|h]|] eqn:E; [by eauto| |];
    left; intros n; by rewrite E.
Qed.

Lemma chat_frame data api (s : gmap string sval) k :
  k ≠ "chat_history" → k ≠ "bot_response_count" →
  (chat str data api s).2 !! k = s !! k.
Proof.
  intros Hk1 Hk2.
  destruct (history_ok_cases s) as [Hs|[n Hn]];
    [|by rewrite (proj1 (chat_int_history data api s n Hn))].
  destruct (get_message data) as [m|e] eqn:Hm;
    [|by rewrite chat_untyped by eauto].
  destruct (decide (m = "")) as [->|Hne];
    [by rewrite chat_untyped by eauto|].
  rewrite (chat_typed _ _ _ _ _ Hm Hne Hs). simpl.
  destruct (completion _) as [[am cm]|e]; simpl.
  - unfold count_reply.
    destruct (_ !! "bot_response_count") as [[n|?]|]; simpl;
      rewrite !lookup_insert_ne by done; by apply init_history_other.
  - rewrite lookup_insert_ne by done. by apply init_history_other.
Qed.

(** X7: the chat handler writes under "chat_history" and
    "bot_response_count" only: every other key of the session keeps its
    value, whatever the session, the request and the answer of the API. *)
Theorem chat_leaves_other_keys data api (s : gmap string sval) k :
  k ≠ "chat_history" → k ≠ "bot_response_count" →
  (chat str data api s).2 !! k = s !! k.
Proof. apply chat_frame. Qed.

(** X8: the transcript only grows at its end: a stored transcript is a
    prefix of the one the request leaves, which has gained nothing, a
    user turn, or a user turn and an assistant turn. *)
Theorem chat_appends_to_transcript data api (s : gmap string sval) h :
  s !! "chat_history" = Some (VList h) →
  ∃ suffix,
    (chat str data api s).2 !! "chat_history" = Some (VList (h ++ suffix)) ∧
    (suffix = [] ∨
     (∃ m, suffix = [Turn user m]) ∨
     (∃ m am, suffix = [Turn user m; Turn assistant am])).
Proof.
  intros Eh.
  assert (Hs : history_ok s) by (intros n; by rewrite Eh).
  assert (Hseed : seeded s = h) by (unfold seeded; by rewrite Eh).
  destruct (chat_outcome data api s Hs) as [->|(m & _ & _ & [H|(am & cm & _ & H)])].
  - exists []. rewrite app_nil_r. eauto.
  - eexists [_]. rewrite H. unfold posted. rewrite Hseed. eauto.
  - eexists [_; _]. rewrite H. unfold posted. rewrite Hseed, <- app_assoc.
    simpl. eauto 6.
Qed.


Lemma continued_nonempty m h : m ≠ "" → continued m h ≠ "".
Proof.
  intros Hm. unfold continued.
  destruct (_ && _); [|done]. by destruct (last h).
Qed.

Lemma posted_shape m (s : gmap string sval) :
  session_inv s → m ≠ "" →
  ∃ mid u, u ≠ "" ∧ posted m s = system_turn :: mid ++ [Turn user u].
Proof.
  intros Hinv Hm. destruct (session_inv_seeded _ Hinv) as [(tl & Hh & _) _].
  exists tl, (continued m (seeded s)). split; [by apply continued_nonempty|].
  unfold posted. by rewrite Hh.
Qed.


(** X10: on a session of the application the API is asked once at most,
    about a transcript that begins with the system turn and ends with a
    user turn of non-empty content: two APIs that agree on those
    transcripts give the same response and the same session. *)
Theorem chat_asks_api_about_posted_transcript data api1 api2 s :
  reachable str s →
  (∀ mid u, u ≠ "" →
     api1 (system_turn :: mid ++ [Turn user u])
     = api2 (system_turn :: mid ++ [Turn user u])) →
  chat str data api1 s = chat str data api2 s.
Proof.
  intros Hinv%(reachable_inv str) Hagree.
  destruct (get_message data) as [m|e] eqn:Hm;
    [|unfold chat; by rewrite Hm].
  destruct (decide (m = "")) as [->|Hne]; [unfold chat; by rewrite Hm|].
  pose proof (session_inv_history_ok _ Hinv) as Hs.
  rewrite !(chat_typed _ _ _ _ _ Hm Hne Hs). simpl.
  destruct (posted_shape m s Hinv Hne) as (mid & u & Hu & ->).
  by rewrite Hagree.
Qed.

(** *** Who speaks after whom *)

(** Every assistant turn of [h] comes directly after a user turn; [prev]
    is the role of the turn before [h]. *)
Fixpoint follows_user (prev : role_tag) (h : list turn) : bool :=
  match h with
  | [] => true
  | t :: r =>
      (if decide (role t = assistant) then bool_decide (prev = user) else true)
      && follows_user (role t) r
  end.

(** No user turn of [h] has an empty content. *)
Definition users_speak (h : list turn) : Prop :=
  Forall (λ t, role t = user → content t ≠ "") h.

Lemma follows_user_app_user prev h u ts :
  follows_user prev (h ++ Turn user u :: ts)
  = follows_user prev h && follows_user user ts.
Proof.
  revert prev. induction h as [|t r IH]; intros prev; simpl; [done|].
  by rewrite IH, andb_assoc.
Qed.

Lemma transcript_seeded (s : gmap string sval) :
  session_inv s →
  seeded s = transcript s ∨ (transcript s = [] ∧ seeded s = [system_turn]).
Proof.
  intros [Hh _]. unfold seeded, transcript.
  destruct (s !! "chat_history") as [[n|h]|]; [done|by left|by right].
Qed.

Lemma transcript_lookup (s : gmap string sval) h :
  s !! "chat_history" = Some (VList h) → transcript s = h.
Proof. intros E. unfold transcript. by rewrite E. Qed.

Lemma chat_keeps_pairing data api s :
  session_inv s →
  follows_user system (transcript s) = true ∧ users_speak (transcript s) →
  follows_user system (transcript (chat str data api s).2) = true ∧
  users_speak (transcript (chat str data api s).2).
Proof.
  intros Hinv [Hf Hu].
  assert (Hseed : follows_user system (seeded s) = true ∧ users_speak (seeded s)).
  { destruct (transcript_seeded s Hinv) as [->|[_ ->]]; [done|].
    split; [done|]. by repeat constructor. }
  destruct Hseed as [Hsf Hsu].
  destruct (chat_outcome data api s (session_inv_history_ok _ Hinv))
    as [->|(m & _ & Hne & [H|(am & cm & _ & H)])]; [done| |];
    rewrite (transcript_lookup _ _ H); unfold posted.
  - rewrite follows_user_app_user, Hsf. split; [done|].
    apply Forall_app. split; [done|]. constructor; [|done].
    intros _. by apply continued_nonempty.
  - rewrite <- app_assoc. simpl. rewrite follows_user_app_user, Hsf.
    split; [done|].
    apply Forall_app. split; [done|]. constructor.
    { intros _. by apply continued_nonempty. }
    by repeat constructor.
Qed.

Lemma session_test_transcript (s : gmap string sval) :
  transcript (session_test s).2 = transcript s.
Proof.
  unfold session_test, transcript.
  destruct (default _ _); simpl; [|done]. by rewrite lookup_insert_ne.
Qed.

(** X11: in every session of the application each assistant turn of the
    transcript comes directly after a user turn, and no user turn is
    empty. *)
Theorem assistant_turns_follow_user_turns s :
  reachable str s →
  follows_user system (transcript s) = true ∧
  Forall (λ t, role t = user → content t ≠ "") (transcript s).
Proof.
  induction 1 as [|data api s Hr IH|s _ _|s _ IH].
  - split; [done|]. constructor.
  - apply chat_keeps_pairing; [by apply (reachable_inv str)|done].
  - split; [done|]. constructor.
  - by rewrite session_test_transcript.
Qed.

(** *** Which message is stored *)

(** An accepted message leaves the posted transcript, with the assistant
    turn when the completion succeeded. *)
Lemma chat_accepted data m api (s : gmap string sval) :
  history_ok s → get_message data = Ok m → m ≠ "" →
  ∃ rest,
    (chat str data api s).2 !! "chat_history"
      = Some (VList (posted m s ++ rest)) ∧
    (rest = [] ∨ ∃ am, rest = [Turn assistant am]).
Proof.
  intros Hs Hm Hne. rewrite (chat_typed _ _ _ _ _ Hm Hne Hs). simpl.
  destruct (completion _) as [[am cm]|e] eqn:Ec.
  - exists [Turn assistant am]. split; [|eauto]. unfold count_reply.
    destruct (_ !! "bot_response_count") as [[n|?]|]; simpl;
      rewrite ?lookup_insert_ne by done; by rewrite lookup_insert_eq.
  - exists []. simpl. rewrite lookup_insert_eq, app_nil_r. eauto.
Qed.

Lemma continued_quotes_last m h t :
  Py.lower m = "continue" → h ≠ [] →
  continued m (h ++ [t])
  = "Continue from where you left off: " +:+ content t.
Proof.
  intros Hl Hh. unfold continued. rewrite Hl, last_snoc, length_app. simpl.
  destruct h; [done|]. simpl.
  destruct (1 <? S (length h + 1))%nat eqn:E; [done|].
  apply Nat.ltb_ge in E. lia.
Qed.

Lemma continued_other m h : Py.lower m ≠ "continue" → continued m h = m.
Proof.
  intros Hl. unfold continued.
  destruct (String.eqb_spec (Py.lower m) "continue"); done.
Qed.

Lemma posted_nonempty m (s : gmap string sval) : posted m s ≠ [].
Proof. unfold posted. by destruct (seeded s). Qed.

(** X12: "continue" sent right after a reply quotes the completion as it
    came, markdown included, and not the cleaned reply the client saw. *)
Theorem continue_after_reply_quotes_raw_completion
    s d1 raw1 api1 status body assistant_message d2 raw2 api2 :
  reachable str s →
  d1 !! "message" = Some (JStr raw1) → Py.strip raw1 ≠ "" →
  api1 (posted (Py.strip raw1) s) = Response status (Some body) →
  ¬ (400 ≤ status < 600) →
  first_choice_content body = Some assistant_message →
  d2 !! "message" = Some (JStr raw2) →
  Py.lower (Py.strip raw2) = "continue" →
  ∃ rest,
    (chat str (JObj d2) api2 (chat str (JObj d1) api1 s).2).2 !! "chat_history"
      = Some (VList (posted (Py.strip raw1) s ++
           Turn assistant assistant_message ::
           Turn user ("Continue from where you left off: "
                      +:+ assistant_message) :: rest)) ∧
    (rest = [] ∨ ∃ am, rest = [Turn assistant am]).
Proof.
  intros Hinv%(reachable_inv str) Hd1 Hne1 Hu Hst Hb Hd2 Hl.
  pose proof (completion_format _ _ _ Hst Hb) as Hc. rewrite <- Hu in Hc.
  pose proof (chat_inv str (JObj d1) api1 s Hinv) as Hinv1.
  assert (H1 : (chat str (JObj d1) api1 s).2 !! "chat_history"
               = Some (VList (posted (Py.strip raw1) s
                              ++ [Turn assistant assistant_message]))).
  { rewrite (chat_replies _ _ _ _ _ _ _ (get_message_lookup _ _ Hd1) Hne1 Hinv Hc).
    simpl. rewrite lookup_insert_ne by done. by rewrite lookup_insert_eq. }
  assert (Hne2 : Py.strip raw2 ≠ "") by (intros E; by rewrite E in Hl).
  destruct (chat_accepted (JObj d2) _ api2 _ (session_inv_history_ok _ Hinv1)
              (get_message_lookup _ _ Hd2) Hne2) as (rest & Hh & Hrest).
  exists rest. split; [|done]. rewrite Hh. unfold posted at 1.
  unfold seeded. rewrite H1.
  rewrite (continued_quotes_last _ _ _ Hl (posted_nonempty _ _)).
  by rewrite <- !app_assoc.
Qed.

(** X13: "continue" sent right after a failed completion quotes the
    user's own previous message, which is then the last turn. *)
Theorem continue_after_failure_quotes_user_message
    s d1 raw1 api1 d2 raw2 api2 :
  reachable str s →
  d1 !! "message" = Some (JStr raw1) → Py.strip raw1 ≠ "" →
  upstream_failed (api1 (posted (Py.strip raw1) s)) →
  d2 !! "message" = Some (JStr raw2) →
  Py.lower (Py.strip raw2) = "continue" →
  ∃ rest,
    (chat str (JObj d2) api2 (chat str (JObj d1) api1 s).2).2 !! "chat_history"
      = Some (VList (seeded s ++
           Turn user (continued (Py.strip raw1) (seeded s)) ::
           Turn user ("Continue from where you left off: "
                      +:+ continued (Py.strip raw1) (seeded s)) :: rest)) ∧
    (rest = [] ∨ ∃ am, rest = [Turn assistant am]).
Proof.
  intros Hinv%(reachable_inv str) Hd1 Hne1 Hf Hd2 Hl.
  apply completion_failed in Hf as [e He].
  pose proof (chat_inv str (JObj d1) api1 s Hinv) as Hinv1.
  assert (H1 : (chat str (JObj d1) api1 s).2 !! "chat_history"
               = Some (VList (posted (Py.strip raw1) s))).
  { rewrite (chat_fails _ _ _ _ _ _ (get_message_lookup _ _ Hd1) Hne1
               (session_inv_history_ok _ Hinv) He).
    simpl. by rewrite lookup_insert_eq. }
  assert (Hne2 : Py.strip raw2 ≠ "") by (intros E; by rewrite E in Hl).
  destruct (chat_accepted (JObj d2) _ api2 _ (session_inv_history_ok _ Hinv1)
              (get_message_lookup _ _ Hd2) Hne2) as (rest & Hh & Hrest).
  exists rest. split; [|done]. rewrite Hh. unfold posted at 1.
  unfold seeded at 1 2. rewrite H1. unfold posted.
  assert (Hs : seeded s ≠ []).
  { destruct (session_inv_seeded _ Hinv) as [(tl & -> & _) _]. done. }
  rewrite (continued_quotes_last _ _ _ Hl Hs).
  by rewrite <- !app_assoc.
Qed.

(** X14: the first message of a conversation is stored as it was
    trimmed, "continue" included: a session without transcript gets the
    system turn, that user turn, and the assistant turn when the
    completion succeeds; the counter is left at the number of replies. *)
Theorem first_message_is_stored_verbatim d raw api (s : gmap string sval) :
  s !! "chat_history" = None →
  d !! "message" = Some (JStr raw) → Py.strip raw ≠ "" →
  ∃ rest,
    (chat str (JObj d) api s).2 !! "chat_history"
      = Some (VList (system_turn :: Turn user (Py.strip raw) :: rest)) ∧
    (rest = [] ∨ ∃ am, rest = [Turn assistant am]) ∧
    (chat str (JObj d) api s).2 !! "bot_response_count"
      = Some (VInt (Z.of_nat (length rest))).
Proof.
  intros Eh Hd Hne.
  assert (Hs : history_ok s) by (intros n; by rewrite Eh).
  assert (Hp : posted (Py.strip raw) s = [system_turn; Turn user (Py.strip raw)]).
  { unfold posted, continued, seeded. rewrite Eh. simpl.
    by rewrite andb_false_r. }
  rewrite (chat_typed _ _ _ _ _ (get_message_lookup _ _ Hd) Hne Hs). simpl.
  rewrite Hp. unfold init_history. rewrite Eh.
  destruct (completion _) as [[am cm]|e].
  - exists [Turn assistant am]. unfold count_reply.
    rewrite !(lookup_insert_ne _ "chat_history" "bot_response_count") by done.
    rewrite lookup_insert_eq. simpl.
    rewrite lookup_insert_eq.
    rewrite lookup_insert_ne by done. rewrite lookup_insert_eq. eauto.
  - exists []. simpl. rewrite lookup_insert_eq.
    rewrite lookup_insert_ne by done. rewrite lookup_insert_eq. eauto.
Qed.

(** X15: a message other than "continue" is appended to the stored
    transcript as it was trimmed. *)
Theorem other_message_is_stored_verbatim d raw api (s : gmap string sval) h :
  s !! "chat_history" = Some (VList h) →
  d !! "message" = Some (JStr raw) → Py.strip raw ≠ "" →
  Py.lower (Py.strip raw) ≠ "continue" →
  ∃ rest,
    (chat str (JObj d) api s).2 !! "chat_history"
      = Some (VList (h ++ Turn user (Py.strip raw) :: rest)) ∧
    (rest = [] ∨ ∃ am, rest = [Turn assistant am]).
Proof.
  intros Eh Hd Hne Hl.
  assert (Hs : history_ok s) by (intros n; by rewrite Eh).
  destruct (chat_accepted (JObj d) _ api s Hs (get_message_lookup _ _ Hd) Hne)
    as (rest & Hh & Hrest).
  exists rest. split; [|done]. rewrite Hh. unfold posted, seeded.
  rewrite Eh, (continued_other _ _ Hl). by rewrite <- app_assoc.
Qed.

(** *** What the client is told *)

(** The exception the [try] block met is the one reported. *)
Lemma chat_reports s d raw api e :
  session_inv s →
  d !! "message" = Some (JStr raw) → Py.strip raw ≠ "" →
  completion (api (posted (Py.strip raw) s)) = Raise e →
  (chat str (JObj d) api s).1
  = Jsonify 500 "error" ("Unexpected error: " +:+ str e).
Proof.
  intros Hinv Hd Hne He.
  by rewrite (chat_fails _ _ _ _ _ _ (get_message_lookup _ _ Hd) Hne
                (session_inv_history_ok _ Hinv) He).
Qed.

(** X16: an error status wins over the body: with a status from 400 to
    599 the answer is the 500 of that [HTTPError], even when the body is a
    well-formed completion. *)
Theorem chat_error_status_wins_over_body s d raw api status body :
  reachable str s →
  d !! "message" = Some (JStr raw) → Py.strip raw ≠ "" →
  api (posted (Py.strip raw) s) = Response status body →
  400 ≤ status < 600 →
  (chat str (JObj d) api s).1
  = Jsonify 500 "error" ("Unexpected error: " +:+ str (HTTPError status)).
Proof.
  intros Hinv%(reachable_inv str) Hd Hne Hu Hst.
  apply (chat_reports _ _ _ _ _ Hinv Hd Hne). rewrite Hu.
  unfold completion, raise_for_status.
  destruct ((400 <=? status) && (status <? 600)) eqn:E; [done|lia].
Qed.

(** X17: with a status that is no error, the exception reported names
    what the body lacks: [JSONDecodeError] for a body that is not JSON,
    [KeyError] for an object without "choices", [IndexError] for an empty
    list of choices, [TypeError] for a content that is null instead of a
    string. *)
Theorem chat_reports_what_the_body_lacks s d raw api status body :
  reachable str s →
  d !! "message" = Some (JStr raw) → Py.strip raw ≠ "" →
  api (posted (Py.strip raw) s) = Response status body →
  ¬ (400 ≤ status < 600) →
  (body = None →
   (chat str (JObj d) api s).1
   = Jsonify 500 "error" ("Unexpected error: " +:+ str JSONDecodeError)) ∧
  (∀ o, body = Some (JObj o) → o !! "choices" = None →
   (chat str (JObj d) api s).1
   = Jsonify 500 "error" ("Unexpected error: " +:+ str KeyError)) ∧
  (∀ o, body = Some (JObj o) → o !! "choices" = Some (JArr []) →
   (chat str (JObj d) api s).1
   = Jsonify 500 "error" ("Unexpected error: " +:+ str IndexError)) ∧
  (∀ o c m rest, body = Some (JObj o) →
   o !! "choices" = Some (JArr (JObj c :: rest)) →
   c !! "message" = Some (JObj m) → m !! "content" = Some JNull →
   (chat str (JObj d) api s).1
   = Jsonify 500 "error" ("Unexpected error: " +:+ str TypeError)).
Proof.
  intros Hinv%(reachable_inv str) Hd Hne Hu Hst.
  assert (Hok : raise_for_status status = Ok tt).
  { unfold raise_for_status.
    destruct ((400 <=? status) && (status <? 600)) eqn:E; [lia|done]. }
  repeat split.
  - intros ->. apply (chat_reports _ _ _ _ _ Hinv Hd Hne). rewrite Hu.
    unfold completion. by rewrite Hok.
  - intros o -> Ho. apply (chat_reports _ _ _ _ _ Hinv Hd Hne). rewrite Hu.
    unfold completion. rewrite Hok. simpl. by rewrite Ho.
  - intros o -> Ho. apply (chat_reports _ _ _ _ _ Hinv Hd Hne). rewrite Hu.
    unfold completion. rewrite Hok. simpl. by rewrite Ho.
  - intros o c m rest -> Ho Hc Hm.
    apply (chat_reports _ _ _ _ _ Hinv Hd Hne). rewrite Hu.
    unfold completion. rewrite Hok. simpl. rewrite Ho. simpl.
    rewrite Hc. simpl. by rewrite Hm.
Qed.

(** X18: on a session of the application, a request with a string
    message is answered with a reply exactly when the message is not
    blank, the status is no error status and the body is a completion;
    the reply is then the cleaned content of the first choice. *)
Theorem chat_replies_exactly_to_completions s d raw api r :
  reachable str s →
  d !! "message" = Some (JStr raw) →
  (chat str (JObj d) api s).1 = Jsonify 200 "reply" r ↔
  Py.strip raw ≠ "" ∧
  ∃ status body assistant_message,
    api (posted (Py.strip raw) s) = Response status (Some body) ∧
    ¬ (400 ≤ status < 600) ∧
    first_choice_content body = Some assistant_message ∧
    r = clean_response assistant_message.
Proof.
  intros Hinv%(reachable_inv str) Hd.
  pose proof (get_message_lookup _ _ Hd) as Hm. split.
  - intros (m & am & Hm' & Hne & Hc & _)%chat_reply_inv.
    rewrite Hm in Hm'. injection Hm' as <-. split; [done|].
    apply completion_inv in Hc as (-> & status & body & Hu & Hst & Hb).
    eauto 8.
  - intros (Hne & status & body & am & Hu & Hst & Hb & ->).
    pose proof (completion_format _ _ _ Hst Hb) as Hc. rewrite <- Hu in Hc.
    by rewrite (chat_replies _ _ _ _ _ _ _ Hm Hne Hinv Hc).
Qed.

(** X19: only the first choice of a completion is read: the other
    choices and the other members of the body change nothing. *)
Theorem completion_reads_first_choice_only status o choice others :
  o !! "choices" = Some (JArr (choice :: others)) →
  completion (Response status (Some (JObj o)))
  = completion (Response status (Some (JObj {[ "choices" := JArr [choice] ]}))).
Proof.
  intros Ho. unfold completion. destruct (raise_for_status status); [|done].
  simpl. by rewrite Ho, lookup_singleton_eq.
Qed.

(** *** The diagnostic counter *)

(** The session after [k] requests to [/session_test]. *)
Fixpoint visits (k : nat) (session : gmap string sval) : gmap string sval :=
  match k with
  | O => session
  | S k => (session_test (visits k session)).2
  end.

Lemma session_test_int (s : gmap string sval) n :
  default (VInt 0) (s !! "test") = VInt n →
  session_test s
  = (Plain ("Session count: " +:+ Py.str_int (n + 1)),
     <["test" := VInt (n + 1)]> s).
Proof. intros H. unfold session_test. by rewrite H. Qed.

(** X20: [k] requests to the diagnostic in a row add [k] to the number
    under "test", zero standing for a missing key; the next request
    reports one more, and no other key has changed. *)
Theorem session_test_counts_requests (s : gmap string sval) n k :
  default (VInt 0) (s !! "test") = VInt n →
  default (VInt 0) (visits k s !! "test") = VInt (n + Z.of_nat k) ∧
  (session_test (visits k s)).1
  = Plain ("Session count: " +:+ Py.str_int (n + Z.of_nat k + 1)) ∧
  (∀ key, key ≠ "test" → visits k s !! key = s !! key).
Proof.
  intros Hn.
  assert (H : default (VInt 0) (visits k s !! "test") = VInt (n + Z.of_nat k) ∧
              (∀ key, key ≠ "test" → visits k s !! key = s !! key)).
  { induction k as [|k [IH1 IH2]]; simpl.
    - rewrite Z.add_0_r. done.
    - rewrite (session_test_int _ _ IH1). simpl. split.
      + rewrite lookup_insert_eq. simpl. f_equal. lia.
      + intros key Hk. rewrite lookup_insert_ne by done. by apply IH2. }
  destruct H as [H1 H2]. split; [done|]. split; [|done].
  by rewrite (session_test_int _ _ H1).
Qed.

(** *** The diagnostic and the chat *)

Lemma init_history_insert_test (s : gmap string sval) v :
  init_history (<["test" := v]> s) = <["test" := v]> (init_history s).
Proof.
  unfold init_history. rewrite lookup_insert_ne by done.
  destruct (s !! "chat_history"); [done|].
  rewrite (insert_insert_ne _ "chat_history" "test") by done.
  by rewrite (insert_insert_ne _ "bot_response_count" "test") by done.
Qed.

Lemma count_reply_insert_test (s : gmap string sval) v :
  count_reply (<["test" := v]> s)
  = match count_reply s with
    | Ok s' => Ok (<["test" := v]> s')
    | Raise e => Raise e
    end.
Proof.
  unfold count_reply. rewrite lookup_insert_ne by done.
  destruct (s !! "bot_response_count") as [[n|?]|]; try done.
  by rewrite (insert_insert_ne _ "bot_response_count" "test") by done.
Qed.

(** The chat handler does not look at the diagnostic counter. *)
Lemma chat_insert_test data api (s : gmap string sval) v :
  history_ok s →
  chat str data api (<["test" := v]> s)
  = ((chat str data api s).1, <["test" := v]> (chat str data api s).2).
Proof.
  intros Hs.
  destruct (get_message data) as [m|e] eqn:Hm;
    [|unfold chat; by rewrite Hm].
  destruct (decide (m = "")) as [->|Hne]; [unfold chat; by rewrite Hm|].
  assert (Hs' : history_ok (<["test" := v]> s)).
  { intros n. rewrite lookup_insert_ne by done. apply Hs. }
  assert (Hp : posted m (<["test" := v]> s) = posted m s).
  { unfold posted, seeded. by rewrite lookup_insert_ne by done. }
  rewrite (chat_typed _ _ _ _ _ Hm Hne Hs), (chat_typed _ _ _ _ _ Hm Hne Hs').
  simpl. rewrite Hp, init_history_insert_test.
  rewrite (insert_insert_ne _ "chat_history" "test") by done.
  destruct (completion _) as [[am cm]|e]; [|done].
  rewrite (insert_insert_ne _ "chat_history" "test") by done.
  rewrite count_reply_insert_test. by destruct (count_reply _).
Qed.

(** X21: on a session of the application the diagnostic and the chat do
    not interfere: a chat request gets the same response and leaves the
    same session whether it comes before or after a request to the
    diagnostic, and so does the diagnostic. *)
Theorem session_test_and_chat_commute data api s :
  reachable str s →
  chat str data api (session_test s).2
  = ((chat str data api s).1, (session_test (chat str data api s).2).2) ∧
  (session_test (chat str data api s).2).1 = (session_test s).1.
Proof.
  intros Hinv%(reachable_inv str).
  assert (∃ n, default (VInt 0) (s !! "test") = VInt n) as [n Hn].
  { destruct Hinv as [_ Ht].
    destruct (s !! "test") as [[n|?]|]; [by eauto|done|by eauto]. }
  assert (Hn' : default (VInt 0) ((chat str data api s).2 !! "test") = VInt n)
    by by rewrite chat_frame.
  rewrite (session_test_int _ _ Hn), (session_test_int _ _ Hn'). simpl.
  split; [|done]. apply chat_insert_test. by apply session_inv_history_ok.
Qed.

(** X22: every reply sent to the client is a cleaned text: it holds no
    markdown character and no blank line, and it is trimmed. *)
Theorem chat_reply_is_clean data api (s : gmap string sval) r :
  (chat str data api s).1 = Jsonify 200 "reply" r →
  Py.all (λ c, negb (is_markdown c)) r = true ∧
  blank_free r = true ∧
  Py.strip r = r.
Proof.
  intros (m & am & _ & _ & Hc & _)%chat_reply_inv.
  apply completion_inv in Hc as [-> _].
  split; [apply clean_response_plain_chars|].
  split; [apply clean_response_blank_free|].
  unfold clean_response. apply strip_idem.
Qed.

End MoreProperties.

(** ** The further properties on concrete requests *)

Lemma chat_leaves_other_keys_witness :
  "test" ≠ "chat_history" ∧ "test" ≠ "bot_response_count" ∧
  (chat str_sample (JObj (message_body "hi")) (api_completes "ok")
     (session_test ∅).2).2 !! "test"
  = (session_test ∅).2 !! "test".
Proof.
  split; [done|]. split; [done|].
  apply (chat_leaves_other_keys str_sample (JObj (message_body "hi"))
           (api_completes "ok") (session_test ∅).2 "test"); done.
Defined.

Lemma chat_appends_to_transcript_witness :
  session_after_hi !! "chat_history"
    = Some (VList [system_turn; Turn user "hi"; Turn assistant "**yo**"]) ∧
  ∃ suffix,
    (chat str_sample (JObj (message_body "more")) (λ _, Response 503 None)
       session_after_hi).2 !! "chat_history"
    = Some (VList ([system_turn; Turn user "hi"; Turn assistant "**yo**"]
                   ++ suffix)) ∧
    (suffix = [] ∨
     (∃ m, suffix = [Turn user m]) ∨
     (∃ m am, suffix = [Turn user m; Turn assistant am])).
Proof.
  split; [reflexivity|].
  apply (chat_appends_to_transcript str_sample (JObj (message_body "more"))
           (λ _, Response 503 None) session_after_hi).
  reflexivity.
Defined.


Lemma chat_asks_api_about_posted_transcript_witness :
  reachable str_sample session_after_hi ∧
  chat str_sample (JObj (message_body "more"))
    (λ h, match h with [] => Raised KeyError | _ => api_completes "ok" h end)
    session_after_hi
  = chat str_sample (JObj (message_body "more")) (api_completes "ok")
      session_after_hi.
Proof.
  split; [apply reachable_chat, reachable_new|].
  apply (chat_asks_api_about_posted_transcript str_sample
           (JObj (message_body "more"))
           (λ h, match h with [] => Raised KeyError | _ => api_completes "ok" h end)
           (api_completes "ok") session_after_hi);
    [apply reachable_chat, reachable_new | reflexivity].
Defined.

Lemma assistant_turns_follow_user_turns_witness :
  reachable str_sample session_after_hi ∧
  follows_user system (transcript session_after_hi) = true ∧
  Forall (λ t, role t = user → content t ≠ "") (transcript session_after_hi).
Proof.
  split; [apply reachable_chat, reachable_new|].
  apply (assistant_turns_follow_user_turns str_sample session_after_hi).
  apply reachable_chat, reachable_new.
Defined.

Lemma continue_after_reply_quotes_raw_completion_witness :
  reachable str_sample ∅ ∧
  Py.lower (Py.strip " Continue") = "continue" ∧
  ∃ rest,
    (chat str_sample (JObj (message_body " Continue")) (api_completes "more")
       (chat str_sample (JObj (message_body "hi")) (api_completes "**yo**")
          ∅).2).2 !! "chat_history"
      = Some (VList (posted (Py.strip "hi") ∅ ++
           Turn assistant "**yo**" ::
           Turn user ("Continue from where you left off: " +:+ "**yo**")
           :: rest)) ∧
    (rest = [] ∨ ∃ am, rest = [Turn assistant am]).
Proof.
  split; [apply reachable_new|]. split; [reflexivity|].
  apply (continue_after_reply_quotes_raw_completion str_sample ∅
           (message_body "hi") "hi" (api_completes "**yo**") 200
           (completion_body "**yo**") "**yo**"
           (message_body " Continue") " Continue" (api_completes "more"));
    [apply reachable_new | reflexivity | vm_compute; discriminate
    | reflexivity | lia | reflexivity | reflexivity | reflexivity].
Defined.

Lemma continue_after_failure_quotes_user_message_witness :
  reachable str_sample ∅ ∧
  upstream_failed (Raised (RequestException "timed out")) ∧
  ∃ rest,
    (chat str_sample (JObj (message_body "continue")) (api_completes "more")
       (chat str_sample (JObj (message_body "hi"))
          (λ _, Raised (RequestException "timed out")) ∅).2).2
      !! "chat_history"
      = Some (VList (seeded ∅ ++
           Turn user (continued (Py.strip "hi") (seeded ∅)) ::
           Turn user ("Continue from where you left off: "
                      +:+ continued (Py.strip "hi") (seeded ∅)) :: rest)) ∧
    (rest = [] ∨ ∃ am, rest = [Turn assistant am]).
Proof.
  split; [apply reachable_new|]. split; [exact I|].
  apply (continue_after_failure_quotes_user_message str_sample ∅
           (message_body "hi") "hi"
           (λ _, Raised (RequestException "timed out"))
           (message_body "continue") "continue" (api_completes "more"));
    [apply reachable_new | reflexivity | vm_compute; discriminate
    | exact I | reflexivity | reflexivity].
Defined.

Lemma first_message_is_stored_verbatim_witness :
  (session_test ∅).2 !! "chat_history" = None ∧
  Py.strip " continue " ≠ "" ∧
  ∃ rest,
    (chat str_sample (JObj (message_body " continue ")) (api_completes "ok")
       (session_test ∅).2).2 !! "chat_history"
      = Some (VList (system_turn :: Turn user (Py.strip " continue ") :: rest)) ∧
    (rest = [] ∨ ∃ am, rest = [Turn assistant am]) ∧
    (chat str_sample (JObj (message_body " continue ")) (api_completes "ok")
       (session_test ∅).2).2 !! "bot_response_count"
      = Some (VInt (Z.of_nat (length rest))).
Proof.
  split; [reflexivity|]. split; [vm_compute; discriminate|].
  apply (first_message_is_stored_verbatim str_sample
           (message_body " continue ") " continue " (api_completes "ok")
           (session_test ∅).2);
    [reflexivity | reflexivity | vm_compute; discriminate].
Defined.

Lemma other_message_is_stored_verbatim_witness :
  session_after_hi !! "chat_history"
    = Some (VList [system_turn; Turn user "hi"; Turn assistant "**yo**"]) ∧
  Py.lower (Py.strip " Continue? ") ≠ "continue" ∧
  ∃ rest,
    (chat str_sample (JObj (message_body " Continue? ")) (api_completes "ok")
       session_after_hi).2 !! "chat_history"
      = Some (VList ([system_turn; Turn user "hi"; Turn assistant "**yo**"]
                     ++ Turn user (Py.strip " Continue? ") :: rest)) ∧
    (rest = [] ∨ ∃ am, rest = [Turn assistant am]).
Proof.
  split; [reflexivity|]. split; [vm_compute; discriminate|].
  apply (other_message_is_stored_verbatim str_sample
           (message_body " Continue? ") " Continue? " (api_completes "ok")
           session_after_hi);
    [reflexivity | reflexivity | vm_compute; discriminate
    | vm_compute; discriminate].
Defined.

Lemma chat_error_status_wins_over_body_witness :
  reachable str_sample ∅ ∧
  400 ≤ 429 < 600 ∧
  (chat str_sample (JObj (message_body "hi"))
     (λ _, Response 429 (Some (completion_body "ok"))) ∅).1
  = Jsonify 500 "error" ("Unexpected error: " +:+ str_sample (HTTPError 429)).
Proof.
  split; [apply reachable_new|]. split; [lia|].
  apply (chat_error_status_wins_over_body str_sample ∅ (message_body "hi")
           "hi" (λ _, Response 429 (Some (completion_body "ok"))) 429
           (Some (completion_body "ok")));
    [apply reachable_new | reflexivity | vm_compute; discriminate
    | reflexivity | lia].
Defined.

Lemma chat_reports_what_the_body_lacks_witness :
  reachable str_sample ∅ ∧
  ¬ (400 ≤ 200 < 600) ∧
  (chat str_sample (JObj (message_body "hi"))
     (λ _, Response 200 (Some (JObj {[ "choices" := JArr [] ]}))) ∅).1
  = Jsonify 500 "error" ("Unexpected error: " +:+ str_sample IndexError).
Proof.
  split; [apply reachable_new|]. split; [lia|].
  apply (proj1 (proj2 (proj2
           (chat_reports_what_the_body_lacks str_sample ∅ (message_body "hi")
              "hi" (λ _, Response 200 (Some (JObj {[ "choices" := JArr [] ]})))
              200 (Some (JObj {[ "choices" := JArr [] ]}))
              (reachable_new _) eq_refl
              ltac:(vm_compute; discriminate) eq_refl ltac:(lia))))
           {[ "choices" := JArr [] ]}); reflexivity.
Defined.

Lemma chat_replies_exactly_to_completions_witness :
  reachable str_sample session_after_hi ∧
  message_body "more" !! "message" = Some (JStr "more") ∧
  (chat str_sample (JObj (message_body "more")) (api_completes "# Done")
     session_after_hi).1 = Jsonify 200 "reply" "Done".
Proof.
  split; [apply reachable_chat, reachable_new|]. split; [reflexivity|].
  apply (chat_replies_exactly_to_completions str_sample session_after_hi
           (message_body "more") "more" (api_completes "# Done") "Done");
    [apply reachable_chat, reachable_new | reflexivity|].
  split; [vm_compute; discriminate|].
  exists 200, (completion_body "# Done"), "# Done".
  split; [reflexivity|]. split; [lia|]. split; reflexivity.
Defined.

Lemma completion_reads_first_choice_only_witness :
  ({[ "choices" := JArr [JNull; JBool true]; "usage" := JNum "12" ]}
     : gmap string json) !! "choices" = Some (JArr [JNull; JBool true]) ∧
  completion (Response 200 (Some (JObj
     {[ "choices" := JArr [JNull; JBool true]; "usage" := JNum "12" ]})))
  = completion (Response 200 (Some (JObj {[ "choices" := JArr [JNull] ]}))).
Proof.
  split; [reflexivity|].
  apply (completion_reads_first_choice_only 200
           {[ "choices" := JArr [JNull; JBool true]; "usage" := JNum "12" ]}
           JNull [JBool true]).
  reflexivity.
Defined.

Lemma session_test_counts_requests_witness :
  default (VInt 0) (session_after_hi !! "test") = VInt 0 ∧
  default (VInt 0) (visits 3 session_after_hi !! "test") = VInt (0 + Z.of_nat 3) ∧
  (session_test (visits 3 session_after_hi)).1
  = Plain ("Session count: " +:+ Py.str_int (0 + Z.of_nat 3 + 1)) ∧
  (∀ key, key ≠ "test" →
     visits 3 session_after_hi !! key = session_after_hi !! key).
Proof.
  split; [reflexivity|].
  apply (session_test_counts_requests session_after_hi 0 3). reflexivity.
Defined.

Lemma session_test_and_chat_commute_witness :
  reachable str_sample session_after_hi ∧
  chat str_sample (JObj (message_body "more")) (api_completes "ok")
    (session_test session_after_hi).2
  = ((chat str_sample (JObj (message_body "more")) (api_completes "ok")
        session_after_hi).1,
     (session_test
        (chat str_sample (JObj (message_body "more")) (api_completes "ok")
           session_after_hi).2).2) ∧
  (session_test
     (chat str_sample (JObj (message_body "more")) (api_completes "ok")
        session_after_hi).2).1
  = (session_test session_after_hi).1.
Proof.
  split; [apply reachable_chat, reachable_new|].
  apply (session_test_and_chat_commute str_sample
           (JObj (message_body "more")) (api_completes "ok") session_after_hi).
  apply reachable_chat, reachable_new.
Defined.

Lemma chat_reply_is_clean_witness :
  (chat str_sample (JObj (message_body "hi"))
     (api_completes ("## Soup" +:+ String LF (String LF "_Stir_ well. ")))
     ∅).1
  = Jsonify 200 "reply" "Soup<br><br>Stir well." ∧
  Py.all (λ c, negb (is_markdown c)) "Soup<br><br>Stir well." = true ∧
  blank_free "Soup<br><br>Stir well." = true ∧
  Py.strip "Soup<br><br>Stir well." = "Soup<br><br>Stir well.".
Proof.
  split; [reflexivity|].
  apply (chat_reply_is_clean str_sample (JObj (message_body "hi"))
           (api_completes ("## Soup" +:+ String LF (String LF "_Stir_ well. ")))
           ∅ "Soup<br><br>Stir well.").
  reflexivity.
Defined.
